(** * ffmpegfront: settings-to-arguments translation

    A shallow embedding of [ffmpegfront.go].  Go strings are byte strings
    ([string]); Go's [int] is a 64-bit integer carried as [Z]; the argument
    vector is a [list string].  A routine that may call [os.Exit], panic or
    launch a subprocess is a computation in the monad [M]: it yields the
    subprocesses and files it touched together with the way it ended. *)

From Stdlib Require Import ZArith List Ascii String Bool Lia DecimalString.
From stdpp Require Import base option list strings gmap fin_maps.

Import ListNotations.
Local Open Scope Z_scope.

(* String concatenation unfolds on a literal or a constructor. *)
#[local] Arguments String.append !_ _ : simpl nomatch.

(** ** How a routine ends, and what it did on the way *)

Inductive result (A : Type) : Type :=
  | Ok (a : A)          (* the routine returned [a] *)
  | Exit (code : Z)     (* os.Exit(code) *)
  | Panic.              (* a run-time panic *)
Arguments Ok {A} a.
Arguments Exit {A} code.
Arguments Panic {A}.

Inductive Event : Type :=
  | EvExec (path : string) (args : list string)   (* exec.Command(path, args...) was run *)
  | EvWriteFile (name : string) (data : string).  (* ioutil.WriteFile(name, data, _) *)

Definition M (A : Type) : Type := (list Event * result A)%type.

Definition ret {A} (a : A) : M A := ([], Ok a).
Definition exit {A} (code : Z) : M A := ([], Exit code).
Definition panic {A} : M A := ([], Panic).
Definition emit (e : Event) : M unit := ([e], Ok tt).

Definition bind {A B} (m : M A) (k : A -> M B) : M B :=
  match m with
  | (t, Ok a) => let '(t', r) := k a in (t ++ t', r)
  | (t, Exit c) => (t, Exit c)
  | (t, Panic) => (t, Panic)
  end.

#[global] Instance M_ret : MRet M := @ret.
#[global] Instance M_bind : MBind M := fun A B k m => bind m k.

Definition trace {A} (m : M A) : list Event := fst m.
Definition outcome {A} (m : M A) : result A := snd m.

(** ** Strings *)

(** [fmt.Sprintf("%d", n)] *)
Definition itoa (n : Z) : string := NilZero.string_of_int (Z.to_int n).

(** [strings.Join(elems, sep)] *)
Fixpoint Join (elems : list string) (sep : string) : string :=
  match elems with
  | [] => ""
  | [e] => e
  | e :: rest => e +:+ sep +:+ Join rest sep
  end.

(** [strings.Split(s, sep)] for a one-byte separator: the pieces between the
    separators, always at least one piece. *)
Fixpoint Split (s : string) (sep : ascii) : list string :=
  match s with
  | EmptyString => [""]
  | String c s' =>
      if Ascii.eqb c sep then "" :: Split s' sep
      else match Split s' sep with
           | [] => [String c ""]
           | piece :: rest => String c piece :: rest
           end
  end.

Definition newline : ascii := ascii_of_nat 10.

(** A slice expression [l[lo:hi]] on a slice whose capacity is its length
    (as the one [strings.Split] returns); out of range is a panic ([None]). *)
Definition slice {A} (l : list A) (lo hi : Z) : option (list A) :=
  if (0 <=? lo) && (lo <=? hi) && (hi <=? Z.of_nat (length l))
  then Some (take (Z.to_nat (hi - lo)) (drop (Z.to_nat lo) l))
  else None.

(** ** Regular expressions (package [regexp]), as far as the program uses them *)

Inductive regex : Type :=
  | REmpty                        (* matches the empty string *)
  | RClass (lo hi : ascii)        (* one byte of the range [lo-hi] *)
  | RSeq (r1 r2 : regex)
  | RStar (r : regex).

Definition in_class (lo hi c : ascii) : bool :=
  (nat_of_ascii lo <=? nat_of_ascii c)%nat && (nat_of_ascii c <=? nat_of_ascii hi)%nat.

Fixpoint nullable (r : regex) : bool :=
  match r with
  | REmpty => true
  | RClass _ _ => false
  | RSeq r1 r2 => nullable r1 && nullable r2
  | RStar _ => true
  end.

(** The alternative of two expressions is only needed for derivatives; it is
    kept outside [regex] as a list of alternatives. *)
Fixpoint deriv (c : ascii) (r : regex) : list regex :=
  match r with
  | REmpty => []
  | RClass lo hi => if in_class lo hi c then [REmpty] else []
  | RSeq r1 r2 =>
      map (fun d => RSeq d r2) (deriv c r1)
      ++ (if nullable r1 then deriv c r2 else [])
  | RStar r1 => map (fun d => RSeq d (RStar r1)) (deriv c r1)
  end.

(** [re.MatchString(s)] for an expression anchored at both ends ([^...$]). *)
Fixpoint matches_any (rs : list regex) (s : string) : bool :=
  match s with
  | EmptyString => existsb nullable rs
  | String c s' => matches_any (flat_map (deriv c) rs) s'
  end.

Definition MatchString (r : regex) (s : string) : bool := matches_any [r] s.

Definition digit : regex := RClass "0" "9".
Definition colon : regex := RClass ":" ":".

(** [regexp.MustCompile(`^[0-9]*:[0-9]*$`)] *)
Definition resolutionRegex : regex :=
  RSeq (RStar digit) (RSeq colon (RStar digit)).

(** ** The settings document (the struct types at the end of the source) *)

Module Video.
Record t : Type := mk {
  SoftwareEncode : bool;
  JustCopy : bool;
  Resolution : string;
  Mode : string;
  Quality : Z;
  Tune : string;
  VideoBitrate : string;
  VideoMaxRate : string;
  VideoBufSize : string }.
End Video.

Module Audio.
Record t : Type := mk {
  JustCopy : bool;
  AudioCodec : string;
  AudioChannels : string;
  AudioFilter : string;
  AudioBitrate : string;
  Loudnorm2Pass : bool }.
End Audio.

Module Subtitles.
Record t : Type := mk {
  BurnInSubtitles : bool;
  SubtitleFile : string;
  SubtitleStyle : string }.
End Subtitles.

Module Time.
Record t : Type := mk {
  TimeSkipIntro : Z;
  TotalTime : Z }.
End Time.

Module Ready.
Record t : Type := mk {
  NoOverwrite : bool;
  Completed : bool;
  Notes : string }.
End Ready.

Module Settings.
Record t : Type := mk {
  Video : Video.t;
  Audio : Audio.t;
  Subtitles : Subtitles.t;
  Time : Time.t;
  Ready : Ready.t }.
End Settings.

Module loudnormValues.
Record t : Type := mk {
  InputI : string;
  InputTp : string;
  InputLra : string;
  InputThresh : string;
  OutputI : string;
  OutputTp : string;
  OutputLra : string;
  OutputThresh : string;
  NormalizationType : string;
  TargetOffset : string }.
End loudnormValues.

(** ** Resolution presets *)

Definition resolutions : gmap string string :=
  {[ "480p" := "640:480";
     "720p" := "1280:720";
     "1080p" := "1920:1080";
     "4k" := "3840:2160" ]}.

(** A Go map read yields the zero value for an absent key. *)
Definition resolutionMap (res : string) : M string :=
  if negb (String.eqb (default "" (resolutions !! res)) "")
  then ret (default "" (resolutions !! res))
  else exit 1.

(** ** Video arguments *)

(** Lines 140-150 of [parseVideoSettings]: the encoder and rate control. *)
Definition videoCodecArgs (v : Video.t) : list string :=
  if negb (Video.SoftwareEncode v) then
    ["-c:v"; "h264_omx"; "-profile:v"; "high"]
  else
    ["-profile:v"; "high10"] ++
    (if String.eqb (Video.Mode v) "cbr" && negb (String.eqb (Video.VideoBitrate v) "")
     then ["-b:v"; Video.VideoBitrate v]
     else ["-crf"; itoa (Video.Quality v); "-maxrate"; Video.VideoMaxRate v;
           "-bufsize"; Video.VideoBufSize v; "-tune"; Video.Tune v]).

(** Lines 155-161: the dimensions the scale clause is given. *)
Definition resolveResolution (r : string) : M string :=
  if MatchString resolutionRegex r then ret r else resolutionMap r.

(** Lines 166-182: the subtitle clause appended to [filter]. *)
Definition subtitleClause (s : Subtitles.t) (f : string) (filter : string) : string :=
  let filter := filter +:+ ", subtitles='" in
  let subFile := if String.eqb (Subtitles.SubtitleFile s) "" then f
                 else Subtitles.SubtitleFile s in
  let filter := filter +:+ subFile in
  let filter := if negb (String.eqb (Subtitles.SubtitleStyle s) "")
                then filter +:+ ":force_style=" +:+ Subtitles.SubtitleStyle s
                else filter in
  filter +:+ "'".

Definition parseVideoSettings (v : Video.t) (s : Subtitles.t) (f : string)
  : M (list string) :=
  let args := videoCodecArgs v in
  if negb (String.eqb (Video.Resolution v) "") || Subtitles.BurnInSubtitles s then
    filter ← (if negb (String.eqb (Video.Resolution v) "") then
                res ← resolveResolution (Video.Resolution v);
                mret ("" +:+ "scale=" +:+ res)
              else mret "");
    let filter := if Subtitles.BurnInSubtitles s then subtitleClause s f filter
                  else filter in
    mret (args ++ ["-vf"; filter])
  else mret args.

(** ** JSON documents (package [encoding/json])

    The text layer of the package (scanning bytes into a value, printing a
    value as indented text) is a given capability; the model starts from the
    scanned value.  What the program relies on is how a value is stored into
    a struct through the struct tags, which is modelled here: a key goes to
    the field whose tag equals it, else to the first field whose tag equals
    it up to letter case; a later duplicate overrides an earlier one; keys
    without a field are skipped; [null] leaves a field as it is; a value of
    the wrong type leaves the field as it is, is reported as an error when
    decoding ends, and does not stop the decoding. *)

#[warnings="-register-all"] Inductive json : Type :=
  | JNull
  | JBool (b : bool)
  | JInt (n : Z)               (* a number literal without fraction or exponent *)
  | JNumber (lit : string)     (* any other number literal *)
  | JStr (s : string)
  | JArr (elems : list json)
  | JObj (members : list (string * json)).

Definition lower (c : ascii) : ascii :=
  if in_class "A" "Z" c then ascii_of_nat (nat_of_ascii c + 32) else c.

Fixpoint foldName (s : string) : string :=
  match s with
  | EmptyString => EmptyString
  | String c s' => String (lower c) (foldName s')
  end.

(** Letter-case folding is taken on ASCII letters only. *)
Definition equalFold (a b : string) : bool := String.eqb (foldName a) (foldName b).

Definition findField (tags : list string) (key : string) : option string :=
  match find (String.eqb key) tags with
  | Some t => Some t
  | None => find (equalFold key) tags
  end.

(** The values a document gives for the field tagged [tag], in document order. *)
Definition fieldValues (tags : list string) (tag : string)
    (members : list (string * json)) : list json :=
  map snd (List.filter (fun kv => match findField tags (fst kv) with
                             | Some t => String.eqb t tag
                             | None => false
                             end) members).

(** A decoded field: its value and whether a type error was met. *)
Definition decoded (A : Type) : Type := (A * bool)%type.

Definition decodeValues {A} (store : json -> A -> decoded A)
    (vals : list json) (old : A) : decoded A :=
  fold_left (fun acc v => let '(a, e) := store v (fst acc) in (a, snd acc || e))
            vals (old, false).

Definition storeBool (v : json) (old : bool) : decoded bool :=
  match v with
  | JNull => (old, false)
  | JBool b => (b, false)
  | _ => (old, true)
  end.

Definition storeString (v : json) (old : string) : decoded string :=
  match v with
  | JNull => (old, false)
  | JStr s => (s, false)
  | _ => (old, true)
  end.

(** Go's [int] holds the 64-bit two's complement range. *)
Definition storeInt (v : json) (old : Z) : decoded Z :=
  match v with
  | JNull => (old, false)
  | JInt n => if (- 2 ^ 63 <=? n) && (n <? 2 ^ 63) then (n, false) else (old, true)
  | _ => (old, true)
  end.

Definition storeStruct {A} (decode : list (string * json) -> A -> decoded A)
    (v : json) (old : A) : decoded A :=
  match v with
  | JNull => (old, false)
  | JObj members => decode members old
  | _ => (old, true)
  end.

Definition videoTags : list string :=
  ["softwareEncode"; "justCopy"; "resolution"; "mode"; "quality"; "tune";
   "videoBitrate"; "videoMaxRate"; "videoBufsize"].
Definition audioTags : list string :=
  ["justCopy"; "audioCodec"; "audioChannels"; "audioFilter"; "auidioBitrate";
   "loudnorm2Pass"].
Definition subtitlesTags : list string :=
  ["burnInSubtitles"; "subtitleFile"; "subtitleStyle"].
Definition timeTags : list string := ["timeSkipIntro"; "totalTime"].
Definition readyTags : list string := ["noOverwrite"; "completed"; "notes"].
Definition settingsTags : list string :=
  ["video"; "audio"; "subtitles"; "time"; "ready"].
Definition loudnormTags : list string :=
  ["input_i"; "input_tp"; "input_lra"; "input_thresh"; "output_i"; "output_tp";
   "output_lra"; "output_thresh"; "normalization_type"; "target_offset"].

Definition decodeVideo (o : list (string * json)) (old : Video.t) : decoded Video.t :=
  let get {A} (store : json -> A -> decoded A) tag prev :=
    decodeValues store (fieldValues videoTags tag o) prev in
  let f1 := get storeBool "softwareEncode" (Video.SoftwareEncode old) in
  let f2 := get storeBool "justCopy" (Video.JustCopy old) in
  let f3 := get storeString "resolution" (Video.Resolution old) in
  let f4 := get storeString "mode" (Video.Mode old) in
  let f5 := get storeInt "quality" (Video.Quality old) in
  let f6 := get storeString "tune" (Video.Tune old) in
  let f7 := get storeString "videoBitrate" (Video.VideoBitrate old) in
  let f8 := get storeString "videoMaxRate" (Video.VideoMaxRate old) in
  let f9 := get storeString "videoBufsize" (Video.VideoBufSize old) in
  (Video.mk (fst f1) (fst f2) (fst f3) (fst f4) (fst f5) (fst f6) (fst f7) (fst f8) (fst f9),
   snd f1 || snd f2 || snd f3 || snd f4 || snd f5 || snd f6 || snd f7 || snd f8 || snd f9).

Definition decodeAudio (o : list (string * json)) (old : Audio.t) : decoded Audio.t :=
  let get {A} (store : json -> A -> decoded A) tag prev :=
    decodeValues store (fieldValues audioTags tag o) prev in
  let f1 := get storeBool "justCopy" (Audio.JustCopy old) in
  let f2 := get storeString "audioCodec" (Audio.AudioCodec old) in
  let f3 := get storeString "audioChannels" (Audio.AudioChannels old) in
  let f4 := get storeString "audioFilter" (Audio.AudioFilter old) in
  let f5 := get storeString "auidioBitrate" (Audio.AudioBitrate old) in
  let f6 := get storeBool "loudnorm2Pass" (Audio.Loudnorm2Pass old) in
  (Audio.mk (fst f1) (fst f2) (fst f3) (fst f4) (fst f5) (fst f6),
   snd f1 || snd f2 || snd f3 || snd f4 || snd f5 || snd f6).

Definition decodeSubtitles (o : list (string * json)) (old : Subtitles.t)
  : decoded Subtitles.t :=
  let get {A} (store : json -> A -> decoded A) tag prev :=
    decodeValues store (fieldValues subtitlesTags tag o) prev in
  let f1 := get storeBool "burnInSubtitles" (Subtitles.BurnInSubtitles old) in
  let f2 := get storeString "subtitleFile" (Subtitles.SubtitleFile old) in
  let f3 := get storeString "subtitleStyle" (Subtitles.SubtitleStyle old) in
  (Subtitles.mk (fst f1) (fst f2) (fst f3), snd f1 || snd f2 || snd f3).

Definition decodeTime (o : list (string * json)) (old : Time.t) : decoded Time.t :=
  let get {A} (store : json -> A -> decoded A) tag prev :=
    decodeValues store (fieldValues timeTags tag o) prev in
  let f1 := get storeInt "timeSkipIntro" (Time.TimeSkipIntro old) in
  let f2 := get storeInt "totalTime" (Time.TotalTime old) in
  (Time.mk (fst f1) (fst f2), snd f1 || snd f2).

Definition decodeReady (o : list (string * json)) (old : Ready.t) : decoded Ready.t :=
  let get {A} (store : json -> A -> decoded A) tag prev :=
    decodeValues store (fieldValues readyTags tag o) prev in
  let f1 := get storeBool "noOverwrite" (Ready.NoOverwrite old) in
  let f2 := get storeBool "completed" (Ready.Completed old) in
  let f3 := get storeString "notes" (Ready.Notes old) in
  (Ready.mk (fst f1) (fst f2) (fst f3), snd f1 || snd f2 || snd f3).

Definition decodeSettings (o : list (string * json)) (old : Settings.t)
  : decoded Settings.t :=
  let get {A} (decode : list (string * json) -> A -> decoded A) tag prev :=
    decodeValues (storeStruct decode) (fieldValues settingsTags tag o) prev in
  let f1 := get decodeVideo "video" (Settings.Video old) in
  let f2 := get decodeAudio "audio" (Settings.Audio old) in
  let f3 := get decodeSubtitles "subtitles" (Settings.Subtitles old) in
  let f4 := get decodeTime "time" (Settings.Time old) in
  let f5 := get decodeReady "ready" (Settings.Ready old) in
  (Settings.mk (fst f1) (fst f2) (fst f3) (fst f4) (fst f5),
   snd f1 || snd f2 || snd f3 || snd f4 || snd f5).

Definition decodeLoudnorm (o : list (string * json)) (old : loudnormValues.t)
  : decoded loudnormValues.t :=
  let get tag prev :=
    decodeValues storeString (fieldValues loudnormTags tag o) prev in
  let f1 := get "input_i" (loudnormValues.InputI old) in
  let f2 := get "input_tp" (loudnormValues.InputTp old) in
  let f3 := get "input_lra" (loudnormValues.InputLra old) in
  let f4 := get "input_thresh" (loudnormValues.InputThresh old) in
  let f5 := get "output_i" (loudnormValues.OutputI old) in
  let f6 := get "output_tp" (loudnormValues.OutputTp old) in
  let f7 := get "output_lra" (loudnormValues.OutputLra old) in
  let f8 := get "output_thresh" (loudnormValues.OutputThresh old) in
  let f9 := get "normalization_type" (loudnormValues.NormalizationType old) in
  let f10 := get "target_offset" (loudnormValues.TargetOffset old) in
  (loudnormValues.mk (fst f1) (fst f2) (fst f3) (fst f4) (fst f5) (fst f6) (fst f7)
     (fst f8) (fst f9) (fst f10),
   snd f1 || snd f2 || snd f3 || snd f4 || snd f5 || snd f6 || snd f7 || snd f8
   || snd f9 || snd f10).

(** The zero values the Go declarations [var x T] start from. *)
Definition zeroVideo : Video.t := Video.mk false false "" "" 0 "" "" "" "".
Definition zeroAudio : Audio.t := Audio.mk false "" "" "" "" false.
Definition zeroSubtitles : Subtitles.t := Subtitles.mk false "" "".
Definition zeroTime : Time.t := Time.mk 0 0.
Definition zeroReady : Ready.t := Ready.mk false false "".
Definition zeroSettings : Settings.t :=
  Settings.mk zeroVideo zeroAudio zeroSubtitles zeroTime zeroReady.
Definition zeroLoudnorm : loudnormValues.t :=
  loudnormValues.mk "" "" "" "" "" "" "" "" "" "".

(** [json.Marshal] of the structs: one member per field, in field order. *)
Definition encodeVideo (v : Video.t) : json :=
  JObj [("softwareEncode", JBool (Video.SoftwareEncode v));
        ("justCopy", JBool (Video.JustCopy v));
        ("resolution", JStr (Video.Resolution v));
        ("mode", JStr (Video.Mode v));
        ("quality", JInt (Video.Quality v));
        ("tune", JStr (Video.Tune v));
        ("videoBitrate", JStr (Video.VideoBitrate v));
        ("videoMaxRate", JStr (Video.VideoMaxRate v));
        ("videoBufsize", JStr (Video.VideoBufSize v))].

Definition encodeAudio (a : Audio.t) : json :=
  JObj [("justCopy", JBool (Audio.JustCopy a));
        ("audioCodec", JStr (Audio.AudioCodec a));
        ("audioChannels", JStr (Audio.AudioChannels a));
        ("audioFilter", JStr (Audio.AudioFilter a));
        ("auidioBitrate", JStr (Audio.AudioBitrate a));
        ("loudnorm2Pass", JBool (Audio.Loudnorm2Pass a))].

Definition encodeSubtitles (s : Subtitles.t) : json :=
  JObj [("burnInSubtitles", JBool (Subtitles.BurnInSubtitles s));
        ("subtitleFile", JStr (Subtitles.SubtitleFile s));
        ("subtitleStyle", JStr (Subtitles.SubtitleStyle s))].

Definition encodeTime (t : Time.t) : json :=
  JObj [("timeSkipIntro", JInt (Time.TimeSkipIntro t));
        ("totalTime", JInt (Time.TotalTime t))].

Definition encodeReady (r : Ready.t) : json :=
  JObj [("noOverwrite", JBool (Ready.NoOverwrite r));
        ("completed", JBool (Ready.Completed r));
        ("notes", JStr (Ready.Notes r))].

Definition encodeSettings (s : Settings.t) : json :=
  JObj [("video", encodeVideo (Settings.Video s));
        ("audio", encodeAudio (Settings.Audio s));
        ("subtitles", encodeSubtitles (Settings.Subtitles s));
        ("time", encodeTime (Settings.Time s));
        ("ready", encodeReady (Settings.Ready s))].

(** ** The outside world

    What the run reads from its surroundings: the settings file, what a
    subprocess answers, and the text layer of [encoding/json]. *)

Inductive fileRead : Type :=
  | OpenError                  (* os.Open fails *)
  | ReadError                  (* ioutil.ReadAll fails *)
  | Contents (bytes : string).

Record cmdRun : Type := {
  failed : bool;               (* cmd.Run() returned an error *)
  stderr : string }.           (* what the subprocess wrote to its diagnostic stream *)

Record Env : Type := {
  readFile : string -> fileRead;
  runCommand : string -> list string -> cmdRun;
  jsonScan : string -> option json;   (* [None]: the text is not valid JSON *)
  jsonIndent : json -> string }.      (* the text [json.MarshalIndent] prints *)

(** The command-line flags (the package-level [flag] variables). *)
Record Flags : Type := {
  templateType : string;
  argsOnly : bool;
  inFile : string;
  outFile : string;
  settingsFile : string;
  logFile : string }.

(** [strings.HasSuffix] *)
Definition HasSuffix (s suffix : string) : bool :=
  let n := String.length s in
  let m := String.length suffix in
  (m <=? n)%nat && String.eqb (substring (n - m) m s) suffix.

Section Program.

Variable env : Env.
Variable fl : Flags.

(** [json.Unmarshal(data, &x)]: the value and whether an error is returned.
    Text that is not valid JSON leaves [x] untouched. *)
Definition Unmarshal {A} (decode : list (string * json) -> A -> decoded A)
    (data : string) (x : A) : decoded A :=
  match jsonScan env data with
  | None => (x, true)
  | Some v => storeStruct decode v x
  end.

(** *** Loudness measurement *)

Definition measureArgs (file : string) : list string :=
  ["-i"; file; "-vn"; "-af"; "loudnorm=I=-16:TP=-1.5:LRA=11:print_format=json";
   "-f"; "null"; "-"].

Definition getLoudnormJson (file : string) : M loudnormValues.t :=
  let args := measureArgs file in
  _ ← emit (EvExec "ffmpeg" args);
  let run := runCommand env "ffmpeg" args in
  if failed run then exit 1
  else
    let lines := Split (stderr run) newline in
    let len := Z.of_nat (length lines) in
    match slice lines (len - 13) (len - 1) with
    | None => panic
    | Some piece =>
        let jsonString := Join piece " " in
        let '(lnJson, err) := Unmarshal decodeLoudnorm jsonString zeroLoudnorm in
        if err then exit 1 else mret lnJson
    end.

(** *** Audio arguments *)

Definition loudnormFilter (lnJson : loudnormValues.t) : string :=
  "loudnorm=I=-16:TP=-1.5:LRA=11:measured_I=" +:+ loudnormValues.OutputI lnJson
  +:+ ":measured_LRA=" +:+ loudnormValues.OutputLra lnJson
  +:+ ":measured_TP=" +:+ loudnormValues.OutputTp lnJson
  +:+ ":measured_thresh=" +:+ loudnormValues.OutputThresh lnJson
  +:+ ":offset=" +:+ loudnormValues.TargetOffset lnJson
  +:+ ":linear=true".

(** Lines 191-211 of [parseAudioSettings]: codec, channels and bitrate. *)
Definition audioStreamArgs (a : Audio.t) : list string :=
  let codec := if negb (String.eqb (Audio.AudioCodec a) "") then Audio.AudioCodec a
               else "aac" in
  let args := [] ++ ["-c:a"; codec] in
  let args := if negb (String.eqb (Audio.AudioChannels a) "")
              then args ++ ["-ac"; Audio.AudioChannels a] else args in
  let bitrate := if negb (String.eqb (Audio.AudioBitrate a) "") then Audio.AudioBitrate a
                 else "192k" in
  args ++ ["-b:a"; bitrate].

Definition parseAudioSettings (a : Audio.t) (file : string) : M (list string) :=
  let args := audioStreamArgs a in
  if String.eqb (Audio.AudioFilter a) "loudnorm" || Audio.Loudnorm2Pass a then
    filter ← (if Audio.Loudnorm2Pass a then
                lnJson ← getLoudnormJson file;
                mret (loudnormFilter lnJson)
              else mret "");
    mret (args ++ ["-filter:a"; filter])
  else mret args.

(** *** Settings file *)

Definition parseSettingsJson (file : string) : M Settings.t :=
  match readFile env file with
  | OpenError => exit 1
  | ReadError => exit 1
  | Contents jsonBytes =>
      (* an error of Unmarshal is logged and the function returns *)
      let '(settings, _) := Unmarshal decodeSettings jsonBytes zeroSettings in
      mret settings
  end.

(** *** Templates *)

(** [json.MarshalIndent] has no failure on these structs, and a failure of
    [ioutil.WriteFile] is only logged. *)
Definition writeJson (jsonData : Settings.t) (fileName : string) : M unit :=
  let fileName := if negb (HasSuffix fileName ".json")
                  then Join [fileName; ".json"] "" else fileName in
  let outData := jsonIndent env (encodeSettings jsonData) in
  emit (EvWriteFile fileName outData).

Definition makeTemplate (arg : string) : Settings.t :=
  let jsonMap : gmap string Settings.t :=
    <[ "tv-normal" := Settings.mk
         (Video.mk true false "720p" "crf" 23 "film" "doesnt matter" "2M" "3M")
         (Audio.mk false "aac" "2" "loudnorm" "192k" true)
         (Subtitles.mk false "no file" "no style")
         (Time.mk 0 0)
         (Ready.mk false true "This is for most TV shows. Maybe it was distributed with a higher bitrate than appropriate, or had an obnoxious intro") ]>
    (<[ "tv-high" := Settings.mk
         (Video.mk true false "1080p" "crf" 21 "film" "doesnt matter" "4M" "6M")
         (Audio.mk false "aac" "2" "loudnorm" "192k" true)
         (Subtitles.mk false "no file" "no style")
         (Time.mk 0 0)
         (Ready.mk false true "This is for TV Shows that need high-quality video stream, but were offered with a stupidly high bitrate because someone doesn't know how to use codecs other than xvid or something.  It also does a software encode in 10bit which is like 10x slower than using the broadcom gpu to do the encode") ]>
    (<[ "movie" := Settings.mk
         (Video.mk false true "unchanged" "none" 0 "none" "unchanged" "none" "none")
         (Audio.mk false "aac" "2" "loudnorm" "192k" true)
         (Subtitles.mk false "no file" "no style")
         (Time.mk 0 0)
         (Ready.mk false true "This is for movies. It leaves the video track untouched, while loudnorming the audio track") ]>
    (<[ "template" := Settings.mk
         (Video.mk true false "ex-480p, 720p, 1080p, 4k" "crf or cbr" 23 "film, grain, animation are valid tunes" "ex-2000k" "ex: 4M, not really needed unless you plan to stream the video file over anything but lan, only needed with crf" "set this to about 1x-2x your maxrate, only needed with crf")
         (Audio.mk true "ex-vorbis, lame, aac, flac" "ex- 2, 5.1" "ex- loudnorm, might just make this a boolean 'UseLoudnorm' because what other filter am I likely to use?" "ex- 200k" false)
         (Subtitles.mk false "ex-file.srt, file.mkv.  It will burn the first subtitle track if given a video file. If you want to burn in a different track, then you'll need to extract it from the video file and specify it.  If you need more complicated options, do it manually ¯\_(ツ)_/¯" "styles look like this: 'FontName=ubuntu,Fontsize=24,PrimaryColour=&H0000ff&' note that the hex is BRG because fuck you that's why")
         (Time.mk 0 0)
         (Ready.mk false false "if 'JustCopy' is set as true on either audio or video settings, all other settings will be ignored.  Loudnorm2pass will be ignored if audiofilter is not set to 'loudnorm'.  Subtitles are hard to work with and i might delete that setting") ]>
    ∅))) in
  match jsonMap !! arg with
  | Some t => t
  | None => default zeroSettings (jsonMap !! "template")
  end.

(** *** The orchestrator

    The log lines and the log file ([getLogFilePath], [logToOutputDir]) are
    left out: they decide nothing of what [main] runs or how it ends.  The
    encoder's own exit status is only logged, so launching it is the last
    thing [main] does before it returns. *)

Definition main : M unit :=
  if negb (String.eqb (templateType fl) "") then
    let templateJson := makeTemplate (templateType fl) in
    _ ← writeJson templateJson "template.json";
    exit 0
  else if String.eqb (inFile fl) "" || String.eqb (outFile fl) ""
          || String.eqb (settingsFile fl) "" then
    exit 1
  else
    settings ← parseSettingsJson (settingsFile fl);
    let args := ["-i"; inFile fl] in
    let args := if negb (Ready.NoOverwrite (Settings.Ready settings))
                then args ++ ["-y"] else args in
    let args := if negb (Time.TimeSkipIntro (Settings.Time settings) =? 0)
                then args ++ ["-ss"; itoa (Time.TimeSkipIntro (Settings.Time settings))]
                else args in
    let args := if negb (Time.TotalTime (Settings.Time settings) =? 0)
                then args ++ ["-t"; itoa (Time.TotalTime (Settings.Time settings))]
                else args in
    args ← (if Audio.JustCopy (Settings.Audio settings) then
              mret (args ++ ["-c:a"; "copy"])
            else
              audioArgs ← parseAudioSettings (Settings.Audio settings) (inFile fl);
              mret (args ++ audioArgs));
    args ← (if Video.JustCopy (Settings.Video settings) then
              mret (args ++ ["-c:v"; "copy"])
            else
              videoArgs ← parseVideoSettings (Settings.Video settings)
                            (Settings.Subtitles settings) (inFile fl);
              mret (args ++ videoArgs));
    (* This needs to happen last before executing the command *)
    let args := args ++ [outFile fl] in
    emit (EvExec "/usr/bin/ffmpeg" args).

End Program.

(** ** Reading an argument list

    Every list the builders produce is a sequence of flag/value pairs; the
    flags are the entries at the even positions. *)
Fixpoint flagsOf (args : list string) : list string :=
  match args with
  | flag :: _ :: rest => flag :: flagsOf rest
  | _ => args
  end.

(** ** What the resolution pattern accepts *)

Inductive lang : regex -> string -> Prop :=
  | lang_empty : lang REmpty ""
  | lang_class lo hi c : in_class lo hi c = true -> lang (RClass lo hi) (String c "")
  | lang_seq r1 r2 s1 s2 : lang r1 s1 -> lang r2 s2 -> lang (RSeq r1 r2) (s1 +:+ s2)
  | lang_star_nil r : lang (RStar r) ""
  | lang_star_more r s1 s2 :
      lang r s1 -> lang (RStar r) s2 -> lang (RStar r) (s1 +:+ s2).

Definition isDigit (c : ascii) : bool := in_class "0" "9" c.

Fixpoint allDigits (s : string) : bool :=
  match s with
  | EmptyString => true
  | String c s' => isDigit c && allDigits s'
  end.

(** The strings of the shape [^\d*:\d*$]: digits, a colon, digits. *)
Definition explicitDims (r : string) : Prop :=
  exists w h : string, r = w +:+ ":" +:+ h /\ allDigits w = true /\ allDigits h = true.

Definition presetNames : list string := ["480p"; "720p"; "1080p"; "4k"].

Definition countFlag (flag : string) (args : list string) : nat :=
  length (List.filter (String.eqb flag) (flagsOf args)).

Definition objectMembers (v : json) : list (string * json) :=
  match v with
  | JObj members => members
  | _ => []
  end.

Definition intInRange (n : Z) : Prop := - 2 ^ 63 <= n < 2 ^ 63.

(** ** Sample runs *)

(** The end-to-end scenario: both streams copied, 10 s skipped, 30 s kept. *)
Definition scenarioSettings : Settings.t :=
  Settings.mk (Video.mk false true "" "" 0 "" "" "" "")
              (Audio.mk true "" "" "" "" false)
              zeroSubtitles
              (Time.mk 10 30)
              zeroReady.

Definition scenarioDocument : json :=
  JObj [("video", JObj [("justCopy", JBool true)]);
        ("audio", JObj [("justCopy", JBool true)]);
        ("time", JObj [("timeSkipIntro", JInt 10); ("totalTime", JInt 30)])].

Definition sampleFlags : Flags :=
  {| templateType := ""; argsOnly := false; inFile := "in.mp4"; outFile := "out.mp4";
     settingsFile := "settings.json"; logFile := "" |}.

Definition quietRun : cmdRun := {| failed := false; stderr := "" |}.

(** A world whose settings file holds the scenario document. *)
Definition scenarioEnv : Env :=
  {| readFile := fun _ => Contents "scenario";
     runCommand := fun _ _ => quietRun;
     jsonScan := fun text => if String.eqb text "scenario" then Some scenarioDocument
                             else None;
     jsonIndent := fun _ => "" |}.

(** A world whose settings file holds an unfinished document. *)
Definition brokenEnv : Env :=
  {| readFile := fun _ => Contents "{";
     runCommand := fun _ _ => quietRun;
     jsonScan := fun _ => None;
     jsonIndent := fun _ => "" |}.

(** The statistics block the encoder prints at the end of a measurement. *)
Definition measuredBlock : list string :=
  ["{";
   "input_i : -27.61,"; "input_tp : -4.47,"; "input_lra : 18.06,";
   "input_thresh : -39.20,"; "output_i : -16.58,"; "output_tp : -1.50,";
   "output_lra : 14.78,"; "output_thresh : -27.71,";
   "normalization_type : dynamic,"; "target_offset : 0.58";
   "}"].

Definition measuredValues : json :=
  JObj [("input_i", JStr "-27.61"); ("input_tp", JStr "-4.47");
        ("input_lra", JStr "18.06"); ("input_thresh", JStr "-39.20");
        ("output_i", JStr "-16.58"); ("output_tp", JStr "-1.50");
        ("output_lra", JStr "14.78"); ("output_thresh", JStr "-27.71");
        ("normalization_type", JStr "dynamic"); ("target_offset", JStr "0.58")].

Definition measuredLoudnorm : loudnormValues.t :=
  loudnormValues.mk "-27.61" "-4.47" "18.06" "-39.20" "-16.58" "-1.50" "14.78" "-27.71"
                    "dynamic" "0.58".

(** A world whose measurement run ends with the statistics block and a
    final newline. *)
Definition measuredEnv : Env :=
  {| readFile := fun _ => OpenError;
     runCommand := fun _ _ =>
       {| failed := false;
          stderr := Join (["size=N/A time=00:00:30.00"; "[Parsed_loudnorm_0 @ 0x5581]"]
                          ++ measuredBlock ++ [""]) (String newline "") |};
     jsonScan := fun text => if String.eqb text (Join measuredBlock " ")
                             then Some measuredValues else None;
     jsonIndent := fun _ => "" |}.

(** A world whose measurement run prints two lines only. *)
Definition terseEnv : Env :=
  {| readFile := fun _ => OpenError;
     runCommand := fun _ _ =>
       {| failed := false; stderr := Join ["video:0kB audio:0kB"; ""] (String newline "") |};
     jsonScan := fun _ => None;
     jsonIndent := fun _ => "" |}.

Definition twoPassAudio : Audio.t := Audio.mk false "aac" "2" "loudnorm" "192k" true.

Definition burnInVideo : Video.t := Video.mk false false "720p" "" 0 "" "" "" "".
Definition burnInSubtitles : Subtitles.t := Subtitles.mk true "" "".
Definition cbrWithoutBitrate : Video.t := Video.mk true false "" "cbr" 23 "film" "" "4M" "6M".
Definition singlePassAudio : Audio.t := Audio.mk false "" "" "loudnorm" "" false.
Definition plainAudio : Audio.t := Audio.mk false "" "" "" "" false.

(** ** Vocabulary for the properties of the builders and of [main] *)

Definition templateNames : list string := ["template"; "movie"; "tv-high"; "tv-normal"].

(** The flags the two builders can put at a flag position. *)
Definition videoFlags : list string :=
  ["-c:v"; "-profile:v"; "-b:v"; "-crf"; "-maxrate"; "-bufsize"; "-tune"; "-vf"].
Definition audioFlags : list string := ["-c:a"; "-ac"; "-b:a"; "-filter:a"].

(** How often the byte [c] occurs in [s]. *)
Fixpoint countByte (c : ascii) (s : string) : nat :=
  match s with
  | EmptyString => 0%nat
  | String x s' => ((if Ascii.eqb x c then 1 else 0) + countByte c s')%nat
  end.

(** Lines 83-88 of [main]: the audio arguments of the run. *)
Definition audioSection (env : Env) (settings : Settings.t) (file : string)
  : M (list string) :=
  if Audio.JustCopy (Settings.Audio settings) then ret ["-c:a"; "copy"]
  else parseAudioSettings env (Settings.Audio settings) file.

(** Lines 91-96 of [main]: the video arguments of the run. *)
Definition videoSection (settings : Settings.t) (file : string) : M (list string) :=
  if Video.JustCopy (Settings.Video settings) then ret ["-c:v"; "copy"]
  else parseVideoSettings (Settings.Video settings) (Settings.Subtitles settings) file.

(** Lines 68-80 of [main]: input, overwrite flag, time skip, duration. *)
Definition leadingArgs (fl : Flags) (settings : Settings.t) : list string :=
  ["-i"; inFile fl]
  ++ (if Ready.NoOverwrite (Settings.Ready settings) then [] else ["-y"])
  ++ (if Time.TimeSkipIntro (Settings.Time settings) =? 0 then []
      else ["-ss"; itoa (Time.TimeSkipIntro (Settings.Time settings))])
  ++ (if Time.TotalTime (Settings.Time settings) =? 0 then []
      else ["-t"; itoa (Time.TotalTime (Settings.Time settings))]).

(** The flags of a run that has its three files named and asks for no template. *)
Definition transcodeFlags (fl : Flags) : Prop :=
  templateType fl = "" /\ inFile fl <> "" /\ outFile fl <> "" /\ settingsFile fl <> "".

(** The settings a readable settings file leaves [main] with. *)
Definition loadedSettings (env : Env) (bytes : string) : Settings.t :=
  fst (Unmarshal env decodeSettings bytes zeroSettings).

(** More sample worlds. *)
Definition templateFlags : Flags :=
  {| templateType := "movie"; argsOnly := false; inFile := ""; outFile := "";
     settingsFile := ""; logFile := "" |}.

Definition missingOutputFlags : Flags :=
  {| templateType := ""; argsOnly := false; inFile := "in.mp4"; outFile := "";
     settingsFile := "settings.json"; logFile := "" |}.


(** A world whose measurement run fails. *)
Definition failingEnv : Env :=
  {| readFile := fun _ => Contents "two-pass";
     runCommand := fun _ _ => {| failed := true; stderr := "in.mp4: No such file" |};
     jsonScan := fun text =>
       if String.eqb text "two-pass"
       then Some (JObj [("audio", JObj [("loudnorm2Pass", JBool true)])])
       else None;
     jsonIndent := fun _ => "" |}.

(** A world whose settings ask for both streams to be copied while naming
    a two-pass normalisation and a resolution that does not resolve. *)
Definition copyAnywayEnv : Env :=
  {| readFile := fun _ => Contents "copy";
     runCommand := fun _ _ => {| failed := true; stderr := "" |};
     jsonScan := fun text =>
       if String.eqb text "copy"
       then Some (JObj [("audio", JObj [("justCopy", JBool true);
                                       ("loudnorm2Pass", JBool true)]);
                        ("video", JObj [("justCopy", JBool true);
                                       ("resolution", JStr "huge")]);
                        ("ready", JObj [("noOverwrite", JBool true)])])
       else None;
     jsonIndent := fun _ => "" |}.

Definition hardwareVideo : Video.t := Video.mk false false "480p" "" 0 "" "" "" "".
Definition hardwareVideoTuned : Video.t :=
  Video.mk false true "480p" "cbr" 30 "grain" "2000k" "4M" "6M".

(** A world in which the text printed for the [tv-normal] template scans
    back to the value it was printed from. *)
Definition templateFileEnv : Env :=
  {| readFile := fun _ => Contents "tv-normal template";
     runCommand := fun _ _ => quietRun;
     jsonScan := fun text =>
       if String.eqb text "tv-normal template"
       then Some (encodeSettings (makeTemplate "tv-normal")) else None;
     jsonIndent := fun _ => "tv-normal template" |}.

(** ** The log file path

    [path.Dir] and [os.Stat] are given: [statDir p] is [None] when
    [os.Stat(p)] returns an error and [Some b] with [b] the answer of
    [IsDir()] otherwise. *)
Record LogEnv : Type := {
  pathDir : string -> string;
  statDir : string -> option bool }.



Definition sampleLogEnv : LogEnv :=
  {| pathDir := fun _ => "/var/log";
     statDir := fun p => if String.eqb p "/var/log" then Some true else None |}.

(** A world whose settings ask for the two-pass normalisation and whose
    measurement run succeeds with two lines of output. *)
Definition terseTwoPassEnv : Env :=
  {| readFile := fun _ => Contents "two-pass";
     runCommand := fun _ _ =>
       {| failed := false; stderr := Join ["video:0kB audio:0kB"; ""] (String newline "") |};
     jsonScan := fun text =>
       if String.eqb text "two-pass"
       then Some (JObj [("audio", JObj [("loudnorm2Pass", JBool true)])])
       else None;
     jsonIndent := fun _ => "" |}.

#[local] Hint Constructors lang : core.

Lemma append_empty_r (s : string) : s +:+ "" = s.
Proof. induction s as [|c s IH]; simpl; [done | by rewrite IH]. Qed.

Lemma append_assoc (a b c : string) : (a +:+ b) +:+ c = a +:+ (b +:+ c).
Proof. induction a as [|x a IH]; simpl; [done | by rewrite IH]. Qed.

Lemma append_eq_empty (a b : string) : a +:+ b = "" -> a = "" /\ b = "".
Proof. destruct a; simpl; [done | discriminate]. Qed.

Lemma nullable_lang (r : regex) : nullable r = true <-> lang r "".
Proof.
  induction r as [|lo hi|r1 IH1 r2 IH2|r IH]; simpl.
  - split; auto.
  - split; [discriminate | inversion 1].
  - rewrite andb_true_iff, IH1, IH2. split.
    + intros [H1 H2]. change "" with ("" +:+ ""). auto.
    + intros H. inv H.
      match goal with E : _ +:+ _ = "" |- _ => apply append_eq_empty in E as [-> ->] end.
      auto.
  - split; auto.
Qed.

Lemma deriv_sound (c : ascii) (r d : regex) (s : string) :
  In d (deriv c r) -> lang d s -> lang r (String c s).
Proof.
  revert d s. induction r as [|lo hi|r1 IH1 r2 IH2|r IH]; simpl; intros d s Hin Hd.
  - done.
  - destruct (in_class lo hi c) eqn:E; simpl in Hin; [|done].
    destruct Hin as [<-|[]]. inv Hd. auto.
  - apply in_app_or in Hin as [Hin|Hin].
    + apply in_map_iff in Hin as (d1 & <- & Hin). inv Hd.
      match goal with |- lang _ (String c (?a +:+ ?b)) =>
        change (String c (a +:+ b)) with (String c a +:+ b) end.
      eauto.
    + destruct (nullable r1) eqn:E; [|done].
      apply nullable_lang in E.
      change (String c s) with ("" +:+ String c s). eauto.
  - apply in_map_iff in Hin as (d1 & <- & Hin). inv Hd.
    match goal with |- lang _ (String c (?a +:+ ?b)) =>
      change (String c (a +:+ b)) with (String c a +:+ b) end.
    eauto.
Qed.

Lemma deriv_complete (c : ascii) (r : regex) (s : string) :
  lang r (String c s) -> exists d, In d (deriv c r) /\ lang d s.
Proof.
  intros H. remember (String c s) as cs eqn:Hcs. revert c s Hcs.
  induction H as [|lo hi x Hx|r1 r2 s1 s2 H1 IH1 H2 IH2| |r s1 s2 H1 IH1 H2 IH2];
    intros c s Hcs; simpl.
  - discriminate.
  - injection Hcs as -> <-. rewrite Hx. exists REmpty. simpl. auto.
  - destruct s1 as [|x s1]; simpl in Hcs.
    + destruct (IH2 _ _ Hcs) as (d & Hin & Hd).
      exists d. split; [|done]. apply in_or_app. right.
      apply nullable_lang in H1. by rewrite H1.
    + injection Hcs as -> <-. destruct (IH1 _ _ eq_refl) as (d & Hin & Hd).
      exists (RSeq d r2). split; [|auto].
      apply in_or_app. left. apply in_map_iff. eauto.
  - discriminate.
  - destruct s1 as [|x s1]; simpl in Hcs.
    + eauto.
    + injection Hcs as -> <-. destruct (IH1 _ _ eq_refl) as (d & Hin & Hd).
      exists (RSeq d (RStar r)). split; [|auto].
      apply in_map_iff. eauto.
Qed.

Lemma matches_any_lang (s : string) (rs : list regex) :
  matches_any rs s = true <-> exists r, In r rs /\ lang r s.
Proof.
  revert rs. induction s as [|c s IH]; intros rs; simpl.
  - rewrite existsb_exists. split; intros (r & Hin & H); exists r;
      (split; [done | by apply nullable_lang]).
  - rewrite IH. split.
    + intros (d & Hin & Hd). apply in_flat_map in Hin as (r & Hr & Hin).
      exists r. split; [done | by eapply deriv_sound].
    + intros (r & Hr & H). apply deriv_complete in H as (d & Hin & Hd).
      exists d. split; [|done]. apply in_flat_map. eauto.
Qed.

Lemma MatchString_lang (r : regex) (s : string) :
  MatchString r s = true <-> lang r s.
Proof.
  unfold MatchString. rewrite matches_any_lang. split.
  - intros (r' & [<-|[]] & H). done.
  - intros H. exists r. simpl. auto.
Qed.

Lemma lang_star_digits (s : string) : lang (RStar digit) s <-> allDigits s = true.
Proof.
  split.
  - intros H. remember (RStar digit) as r eqn:Hr.
    induction H as [| | | |r s1 s2 H1 _ H2 IH2]; try discriminate; [done|].
    injection Hr as ->. inversion H1; subst. simpl.
    apply andb_true_iff. auto.
  - induction s as [|c s IH]; simpl; [auto|].
    rewrite andb_true_iff. intros [Hc Hs].
    change (String c s) with (String c "" +:+ s).
    apply lang_star_more; [by apply lang_class | auto].
Qed.

Lemma in_class_single (c x : ascii) : in_class c c x = true -> x = c.
Proof.
  unfold in_class. rewrite andb_true_iff, !Nat.leb_le. intros [Hlo Hhi].
  rewrite <- (ascii_nat_embedding x), <- (ascii_nat_embedding c).
  f_equal. lia.
Qed.

Lemma resolutionRegex_explicitDims (r : string) :
  MatchString resolutionRegex r = true <-> explicitDims r.
Proof.
  rewrite MatchString_lang. unfold resolutionRegex, explicitDims, colon. split.
  - intros H. inv H.
    match goal with H : lang (RSeq _ _) _ |- _ => inv H end.
    match goal with H : lang (RClass _ _) _ |- _ => inv H end.
    match goal with H : in_class _ _ _ = true |- _ => apply in_class_single in H as -> end.
    eexists _, _. split; [reflexivity|]. by rewrite <- !lang_star_digits.
  - intros (w & h & -> & Hw & Hh).
    apply lang_seq; [by apply lang_star_digits|].
    change (":" +:+ h) with (String ":" "" +:+ h).
    apply lang_seq; [by apply lang_class | by apply lang_star_digits].
Qed.

(** ** The video builder *)

Ltac run_M := unfold mbind, M_bind, bind, mret, M_ret, ret, exit, panic, emit in *.

Lemma resolutions_absent (r : string) :
  r ∉ presetNames -> resolutions !! r = None.
Proof.
  unfold presetNames, resolutions. rewrite !not_elem_of_cons.
  intros (H1 & H2 & H3 & H4 & _).
  rewrite !lookup_insert_ne by done. by apply lookup_singleton_ne.
Qed.

Lemma resolutionMap_absent (r : string) :
  r ∉ presetNames -> resolutionMap r = exit 1.
Proof. intros H. unfold resolutionMap. by rewrite resolutions_absent. Qed.

Lemma explicitDims_not_preset (r : string) :
  explicitDims r -> r ∉ presetNames.
Proof.
  intros H%resolutionRegex_explicitDims Hin.
  unfold presetNames in Hin. rewrite !elem_of_cons in Hin.
  destruct Hin as [->|[->|[->|[->|Hin]]]]; [done..|]. by apply elem_of_nil in Hin.
Qed.

(** The resolution step either yields dimensions or ends the process with
    status 1; it launches nothing. *)
Lemma resolveResolution_cases (r : string) :
  (exists dims, resolveResolution r = ret dims) \/ resolveResolution r = exit 1.
Proof.
  unfold resolveResolution, resolutionMap.
  destruct (MatchString resolutionRegex r); [eauto|].
  destruct (negb _); eauto.
Qed.

Lemma parseVideoSettings_no_filter (v : Video.t) (s : Subtitles.t) (f : string) :
  Video.Resolution v = "" -> Subtitles.BurnInSubtitles s = false ->
  parseVideoSettings v s f = ret (videoCodecArgs v).
Proof. intros Hr Hb. unfold parseVideoSettings. by rewrite Hr, Hb. Qed.

Lemma parseVideoSettings_unresolved (v : Video.t) (s : Subtitles.t) (f : string) :
  Video.Resolution v <> "" ->
  resolveResolution (Video.Resolution v) = exit 1 ->
  parseVideoSettings v s f = exit 1.
Proof.
  intros Hr He. unfold parseVideoSettings.
  apply String.eqb_neq in Hr. rewrite Hr. simpl. by rewrite He.
Qed.

Lemma parseVideoSettings_scaled (v : Video.t) (s : Subtitles.t) (f dims : string) :
  Video.Resolution v <> "" ->
  resolveResolution (Video.Resolution v) = ret dims ->
  parseVideoSettings v s f =
    ret (videoCodecArgs v ++
         ["-vf"; if Subtitles.BurnInSubtitles s
                 then subtitleClause s f ("scale=" +:+ dims)
                 else "scale=" +:+ dims]).
Proof.
  intros Hr He. unfold parseVideoSettings.
  apply String.eqb_neq in Hr. rewrite Hr. simpl. by rewrite He.
Qed.

Lemma parseVideoSettings_subtitles_only (v : Video.t) (s : Subtitles.t) (f : string) :
  Video.Resolution v = "" -> Subtitles.BurnInSubtitles s = true ->
  parseVideoSettings v s f = ret (videoCodecArgs v ++ ["-vf"; subtitleClause s f ""]).
Proof. intros Hr Hb. unfold parseVideoSettings. by rewrite Hr, Hb. Qed.

(** C3. A preset name resolves to its documented dimensions, a string of the
    shape digits-colon-digits is used as it is, and any other non-empty
    resolution ends the process with status 1: the resolution step does, and
    so does the video builder it runs in. *)
Theorem resolution_resolved (r : string) :
  r <> "" ->
  (r = "480p" -> resolveResolution r = ret "640:480") /\
  (r = "720p" -> resolveResolution r = ret "1280:720") /\
  (r = "1080p" -> resolveResolution r = ret "1920:1080") /\
  (r = "4k" -> resolveResolution r = ret "3840:2160") /\
  (explicitDims r -> resolveResolution r = ret r) /\
  (r ∉ presetNames -> ~ explicitDims r ->
     resolveResolution r = exit 1 /\
     forall (v : Video.t) (s : Subtitles.t) (f : string),
       Video.Resolution v = r -> parseVideoSettings v s f = exit 1).
Proof.
  intros Hne. repeat split; try (intros ->; reflexivity).
  - intros H%resolutionRegex_explicitDims. unfold resolveResolution. by rewrite H.
  - unfold resolveResolution.
    destruct (MatchString resolutionRegex r) eqn:E.
    + by apply resolutionRegex_explicitDims in E.
    + by apply resolutionMap_absent.
  - intros v s f <-. apply parseVideoSettings_unresolved; [done|].
    unfold resolveResolution.
    destruct (MatchString resolutionRegex (Video.Resolution v)) eqn:E.
    + by apply resolutionRegex_explicitDims in E.
    + by apply resolutionMap_absent.
Qed.

Lemma subtitleClause_shape (s : Subtitles.t) (f : string) :
  exists subFile style : string,
    (forall filter, subtitleClause s f filter =
                    filter +:+ ", subtitles='" +:+ subFile +:+ style +:+ "'") /\
    (Subtitles.SubtitleFile s = "" -> subFile = f) /\
    (Subtitles.SubtitleFile s <> "" -> subFile = Subtitles.SubtitleFile s) /\
    (Subtitles.SubtitleStyle s = "" -> style = "") /\
    (Subtitles.SubtitleStyle s <> "" ->
       style = ":force_style=" +:+ Subtitles.SubtitleStyle s).
Proof.
  exists (if String.eqb (Subtitles.SubtitleFile s) "" then f else Subtitles.SubtitleFile s),
         (if String.eqb (Subtitles.SubtitleStyle s) "" then ""
          else ":force_style=" +:+ Subtitles.SubtitleStyle s).
  repeat split.
  - intros filter. unfold subtitleClause.
    destruct (String.eqb (Subtitles.SubtitleStyle s) ""); simpl negb; cbv iota;
      by rewrite !append_assoc.
  - intros ->. done.
  - intros H%String.eqb_neq. by rewrite H.
  - intros ->. done.
  - intros H%String.eqb_neq. by rewrite H.
Qed.

Lemma flagsOf_videoCodecArgs_filter (v : Video.t) (filter : string) :
  flagsOf (videoCodecArgs v ++ ["-vf"; filter]) = flagsOf (videoCodecArgs v) ++ ["-vf"].
Proof.
  unfold videoCodecArgs.
  destruct (Video.SoftwareEncode v); simpl; [|done].
  by destruct (_ && _).
Qed.

Lemma countFlag_vf_videoCodecArgs (v : Video.t) : countFlag "-vf" (videoCodecArgs v) = 0%nat.
Proof.
  unfold countFlag, videoCodecArgs.
  destruct (Video.SoftwareEncode v); simpl; [|done].
  by destruct (_ && _).
Qed.

Lemma countFlag_vf_filter (v : Video.t) (filter : string) :
  countFlag "-vf" (videoCodecArgs v ++ ["-vf"; filter]) = 1%nat.
Proof.
  pose proof (countFlag_vf_videoCodecArgs v) as H. unfold countFlag in *.
  rewrite flagsOf_videoCodecArgs_filter, List.filter_app, length_app, H. done.
Qed.

(** C6. With subtitle burn-in requested: when a resolution is given, the
    video arguments are the codec arguments followed by one [-vf] flag whose
    value is the scale clause, a comma, and the subtitle clause, and [-vf]
    is the flag of exactly one flag/value pair (an unknown resolution ends
    the process instead); and when [subtitleFile] is empty the subtitle
    clause names the input file, whatever the resolution. *)
Theorem scale_and_subtitles_one_filter (v : Video.t) (s : Subtitles.t) (f : string) :
  Subtitles.BurnInSubtitles s = true ->
  (Video.Resolution v <> "" ->
     (forall dims, resolveResolution (Video.Resolution v) = ret dims ->
        exists subFile style : string,
          parseVideoSettings v s f =
            ret (videoCodecArgs v ++
                 ["-vf"; "scale=" +:+ dims +:+ ", subtitles='" +:+ subFile +:+ style +:+ "'"]) /\
          countFlag "-vf"
            (videoCodecArgs v ++
             ["-vf"; "scale=" +:+ dims +:+ ", subtitles='" +:+ subFile +:+ style +:+ "'"])
          = 1%nat /\
          (Subtitles.SubtitleFile s = "" -> subFile = f) /\
          (Subtitles.SubtitleFile s <> "" -> subFile = Subtitles.SubtitleFile s) /\
          (Subtitles.SubtitleStyle s = "" -> style = "") /\
          (Subtitles.SubtitleStyle s <> "" ->
             style = ":force_style=" +:+ Subtitles.SubtitleStyle s)) /\
     (resolveResolution (Video.Resolution v) = exit 1 ->
        parseVideoSettings v s f = exit 1)) /\
  (Subtitles.SubtitleFile s = "" ->
     forall args, outcome (parseVideoSettings v s f) = Ok args ->
       exists scale style : string,
         args = videoCodecArgs v ++
                ["-vf"; scale +:+ ", subtitles='" +:+ f +:+ style +:+ "'"]).
Proof.
  intros Hb.
  destruct (subtitleClause_shape s f) as (subFile & style & Hshape & Hf & Hf' & Hs & Hs').
  split; [intros Hr; split|].
  - intros dims Hd. exists subFile, style.
    rewrite (parseVideoSettings_scaled v s f dims Hr Hd), Hb, Hshape.
    rewrite !append_assoc. simpl.
    split; [done|]. split; [apply countFlag_vf_filter|]. done.
  - by apply parseVideoSettings_unresolved.
  - intros Hsf args Hargs. rewrite (Hf Hsf) in Hshape.
    destruct (String.eqb_spec (Video.Resolution v) "") as [Hr|Hr].
    + rewrite (parseVideoSettings_subtitles_only v s f Hr Hb), Hshape in Hargs.
      injection Hargs as <-. by exists "", style.
    + destruct (resolveResolution_cases (Video.Resolution v)) as [[dims Hd]|He].
      * rewrite (parseVideoSettings_scaled v s f dims Hr Hd), Hb, Hshape in Hargs.
        injection Hargs as <-. by exists ("scale=" +:+ dims), style.
      * by rewrite (parseVideoSettings_unresolved v s f Hr He) in Hargs.
Qed.

(** C10. With an empty resolution and subtitle burn-in requested, [-vf] is
    still emitted and its value begins with a comma, a space and
    [subtitles='], no scale clause before it; and whenever burn-in is
    requested the subtitle clause follows whatever precedes it (a scale
    clause or nothing) with that same comma and space. *)
Theorem subtitle_clause_leading_comma (v : Video.t) (s : Subtitles.t) (f : string) :
  Subtitles.BurnInSubtitles s = true ->
  (Video.Resolution v = "" ->
     exists rest : string,
       parseVideoSettings v s f =
         ret (videoCodecArgs v ++ ["-vf"; ", subtitles='" +:+ rest])) /\
  (forall args, outcome (parseVideoSettings v s f) = Ok args ->
     exists scale rest : string,
       args = videoCodecArgs v ++ ["-vf"; scale +:+ ", subtitles='" +:+ rest] /\
       (Video.Resolution v = "" -> scale = "") /\
       (Video.Resolution v <> "" ->
          exists dims, resolveResolution (Video.Resolution v) = ret dims /\
                       scale = "scale=" +:+ dims)).
Proof.
  intros Hb.
  destruct (subtitleClause_shape s f) as (subFile & style & Hshape & _).
  split.
  - intros Hr. exists (subFile +:+ style +:+ "'").
    by rewrite (parseVideoSettings_subtitles_only v s f Hr Hb), Hshape.
  - intros args Hargs.
    destruct (String.eqb_spec (Video.Resolution v) "") as [Hr|Hr].
    + rewrite (parseVideoSettings_subtitles_only v s f Hr Hb), Hshape in Hargs.
      injection Hargs as <-. exists "", (subFile +:+ style +:+ "'").
      split; [done|]. split; [done|]. intros Hr'. by destruct Hr'.
    + destruct (resolveResolution_cases (Video.Resolution v)) as [[dims Hd]|He].
      * rewrite (parseVideoSettings_scaled v s f dims Hr Hd), Hb, Hshape in Hargs.
        injection Hargs as <-. exists ("scale=" +:+ dims), (subFile +:+ style +:+ "'").
        split; [done|]. split; [done|]. intros _. by exists dims.
      * by rewrite (parseVideoSettings_unresolved v s f Hr He) in Hargs.
Qed.

(** The video builder returns the codec arguments, followed by at most one
    [-vf] pair. *)
Lemma parseVideoSettings_returns (v : Video.t) (s : Subtitles.t) (f : string)
    (args : list string) :
  outcome (parseVideoSettings v s f) = Ok args ->
  args = videoCodecArgs v \/ exists filter, args = videoCodecArgs v ++ ["-vf"; filter].
Proof.
  intros Hargs.
  destruct (String.eqb_spec (Video.Resolution v) "") as [Hr|Hr].
  - destruct (Subtitles.BurnInSubtitles s) eqn:Hb.
    + rewrite (parseVideoSettings_subtitles_only v s f Hr Hb) in Hargs.
      injection Hargs as <-. eauto.
    + rewrite (parseVideoSettings_no_filter v s f Hr Hb) in Hargs.
      injection Hargs as <-. eauto.
  - destruct (resolveResolution_cases (Video.Resolution v)) as [[dims Hd]|He].
    + rewrite (parseVideoSettings_scaled v s f dims Hr Hd) in Hargs.
      injection Hargs as <-. eauto.
    + by rewrite (parseVideoSettings_unresolved v s f Hr He) in Hargs.
Qed.

(** C7. On the software path the constant-bitrate arguments ([-b:v] with
    [videoBitrate]) are built exactly when [mode] is ["cbr"] and
    [videoBitrate] is not empty; in every other case, [mode] ["cbr"] with an
    empty [videoBitrate] included, the builder emits [-crf], [-maxrate],
    [-bufsize] and [-tune]. *)
Theorem cbr_needs_bitrate (v : Video.t) (s : Subtitles.t) (f : string) :
  Video.SoftwareEncode v = true ->
  (Video.Mode v = "cbr" /\ Video.VideoBitrate v <> "" ->
     videoCodecArgs v = ["-profile:v"; "high10"; "-b:v"; Video.VideoBitrate v]) /\
  (~ (Video.Mode v = "cbr" /\ Video.VideoBitrate v <> "") ->
     videoCodecArgs v =
       ["-profile:v"; "high10"; "-crf"; itoa (Video.Quality v);
        "-maxrate"; Video.VideoMaxRate v; "-bufsize"; Video.VideoBufSize v;
        "-tune"; Video.Tune v]) /\
  (forall args, outcome (parseVideoSettings v s f) = Ok args ->
     (exists rest, args = videoCodecArgs v ++ rest) /\
     (In "-b:v" (flagsOf args) <-> Video.Mode v = "cbr" /\ Video.VideoBitrate v <> "") /\
     (In "-crf" (flagsOf args) <->
        ~ (Video.Mode v = "cbr" /\ Video.VideoBitrate v <> ""))).
Proof.
  intros Hsw.
  assert (Hcbr : String.eqb (Video.Mode v) "cbr" && negb (String.eqb (Video.VideoBitrate v) "") = true
                 <-> Video.Mode v = "cbr" /\ Video.VideoBitrate v <> "").
  { rewrite andb_true_iff, negb_true_iff, String.eqb_eq, String.eqb_neq. done. }
  split; [|split].
  - intros H%Hcbr. unfold videoCodecArgs. by rewrite Hsw, H.
  - intros H. unfold videoCodecArgs. rewrite Hsw. simpl.
    destruct (_ && _); [|done]. destruct H. by apply Hcbr.
  - intros args Hargs. apply parseVideoSettings_returns in Hargs.
    assert (Hflags : flagsOf args = flagsOf (videoCodecArgs v)
                     \/ flagsOf args = flagsOf (videoCodecArgs v) ++ ["-vf"]).
    { destruct Hargs as [->|[filter ->]]; [by left|right].
      apply flagsOf_videoCodecArgs_filter. }
    split.
    { destruct Hargs as [->|[filter ->]]; [exists []; by rewrite app_nil_r | eauto]. }
    rewrite <- Hcbr. unfold videoCodecArgs in Hflags. rewrite Hsw in Hflags.
    simpl in Hflags.
    destruct (_ && _); simpl in Hflags; destruct Hflags as [-> | ->]; simpl;
      split; split; intros H; try done;
      repeat (destruct H as [H|H]; try discriminate H); auto.
Qed.

(** ** The audio builder and the loudness measurement *)

Lemma slice_none_iff {A} (l : list A) :
  slice l (Z.of_nat (length l) - 13) (Z.of_nat (length l) - 1) = None
  <-> (length l < 13)%nat.
Proof.
  unfold slice.
  destruct (Z.leb_spec 0 (Z.of_nat (length l) - 13));
    destruct (Z.leb_spec (Z.of_nat (length l) - 13) (Z.of_nat (length l) - 1));
    destruct (Z.leb_spec (Z.of_nat (length l) - 1) (Z.of_nat (length l)));
    simpl; split; intros; try done; lia.
Qed.

Lemma slice_twelve_before_last {A} (pre piece : list A) (last : A) :
  length piece = 12%nat ->
  slice (pre ++ piece ++ [last])
        (Z.of_nat (length (pre ++ piece ++ [last])) - 13)
        (Z.of_nat (length (pre ++ piece ++ [last])) - 1) = Some piece.
Proof.
  intros Hlen. unfold slice. rewrite !length_app, Hlen. simpl length.
  replace (Z.of_nat (length pre + (12 + 1)) - 13) with (Z.of_nat (length pre)) by lia.
  replace (Z.of_nat (length pre + (12 + 1)) - 1 - Z.of_nat (length pre)) with 12 by lia.
  destruct (Z.leb_spec 0 (Z.of_nat (length pre))); [|lia].
  destruct (Z.leb_spec (Z.of_nat (length pre)) (Z.of_nat (length pre + (12 + 1)) - 1)); [|lia].
  destruct (Z.leb_spec (Z.of_nat (length pre + (12 + 1)) - 1)
                       (Z.of_nat (length pre + (12 + 1)))); [|lia].
  simpl. rewrite Nat2Z.id, drop_app_length.
  f_equal. replace (Z.to_nat 12) with (length piece) by (rewrite Hlen; done).
  apply take_app_length.
Qed.

Lemma flagsOf_audioStreamArgs (a : Audio.t) :
  flagsOf (audioStreamArgs a) = ["-c:a"; "-b:a"]
  \/ flagsOf (audioStreamArgs a) = ["-c:a"; "-ac"; "-b:a"].
Proof.
  unfold audioStreamArgs. destruct (negb (String.eqb (Audio.AudioChannels a) "")); auto.
Qed.

Lemma flagsOf_audioStreamArgs_filter (a : Audio.t) (filter : string) :
  flagsOf (audioStreamArgs a ++ ["-filter:a"; filter])
  = flagsOf (audioStreamArgs a) ++ ["-filter:a"].
Proof.
  unfold audioStreamArgs. by destruct (negb (String.eqb (Audio.AudioChannels a) "")).
Qed.

Lemma audioStreamArgs_no_filter_flag (a : Audio.t) :
  ~ In "-filter:a" (flagsOf (audioStreamArgs a)).
Proof.
  destruct (flagsOf_audioStreamArgs a) as [-> | ->]; simpl; intros H;
    repeat (destruct H as [H|H]; try discriminate H); done.
Qed.

Section Measurement.

Variable env : Env.

Lemma getLoudnormJson_trace (file : string) :
  trace (getLoudnormJson env file) = [EvExec "ffmpeg" (measureArgs file)].
Proof.
  unfold getLoudnormJson. run_M. simpl.
  destruct (failed _); [done|]. destruct (slice _ _ _); [|done].
  destruct (Unmarshal _ _ _ _) as [m []]; done.
Qed.

Lemma parseAudioSettings_single_pass (a : Audio.t) (file : string) :
  Audio.Loudnorm2Pass a = false ->
  parseAudioSettings env a file =
    if String.eqb (Audio.AudioFilter a) "loudnorm"
    then ret (audioStreamArgs a ++ ["-filter:a"; ""])
    else ret (audioStreamArgs a).
Proof.
  intros H2. unfold parseAudioSettings. rewrite H2, orb_false_r.
  by destruct (String.eqb _ _).
Qed.

Lemma parseAudioSettings_two_pass (a : Audio.t) (file : string) :
  Audio.Loudnorm2Pass a = true ->
  parseAudioSettings env a file =
    (lnJson ← getLoudnormJson env file;
     mret (audioStreamArgs a ++ ["-filter:a"; loudnormFilter lnJson])).
Proof.
  intros H2. unfold parseAudioSettings. rewrite H2, orb_true_r.
  run_M. destruct (getLoudnormJson env file) as [t [m| |]]; simpl;
    by rewrite ?app_nil_r.
Qed.

(** C4. The audio builder emits a [-filter:a] flag exactly when
    [audioFilter] is ["loudnorm"] or [loudnorm2Pass] is set (for every Audio
    value, so also for those with [justCopy] false, the only ones the
    orchestrator hands to it).  With [loudnorm2Pass] false and another
    [audioFilter] the builder returns the stream arguments and no
    [-filter:a] flag; with [loudnorm2Pass] false and [audioFilter]
    ["loudnorm"] it returns them followed by [-filter:a] and an empty
    value. *)
Theorem audio_filter_flag (a : Audio.t) (file : string) :
  (forall args, outcome (parseAudioSettings env a file) = Ok args ->
     (In "-filter:a" (flagsOf args)
      <-> Audio.AudioFilter a = "loudnorm" \/ Audio.Loudnorm2Pass a = true)) /\
  (Audio.Loudnorm2Pass a = false -> Audio.AudioFilter a <> "loudnorm" ->
     parseAudioSettings env a file = ret (audioStreamArgs a) /\
     ~ In "-filter:a" (flagsOf (audioStreamArgs a))) /\
  (Audio.Loudnorm2Pass a = false -> Audio.AudioFilter a = "loudnorm" ->
     parseAudioSettings env a file = ret (audioStreamArgs a ++ ["-filter:a"; ""]) /\
     In "-filter:a" (flagsOf (audioStreamArgs a ++ ["-filter:a"; ""]))).
Proof.
  split; [|split].
  - intros args Hargs.
    destruct (Audio.Loudnorm2Pass a) eqn:H2.
    + rewrite (parseAudioSettings_two_pass a file H2) in Hargs. run_M.
      destruct (getLoudnormJson env file) as [t [m| |]]; simpl in Hargs; try done.
      injection Hargs as <-. rewrite flagsOf_audioStreamArgs_filter.
      split; [auto|]. intros _. apply in_or_app. right. by left.
    + rewrite (parseAudioSettings_single_pass a file H2) in Hargs.
      destruct (String.eqb_spec (Audio.AudioFilter a) "loudnorm") as [Hf|Hf];
        injection Hargs as <-.
      * rewrite flagsOf_audioStreamArgs_filter.
        split; [auto|]. intros _. apply in_or_app. right. by left.
      * split; [intros H; by apply audioStreamArgs_no_filter_flag in H|].
        intros [?|?]; done.
  - intros H2 Hf. rewrite (parseAudioSettings_single_pass a file H2).
    apply String.eqb_neq in Hf. rewrite Hf.
    split; [done | apply audioStreamArgs_no_filter_flag].
  - intros H2 Hf. rewrite (parseAudioSettings_single_pass a file H2).
    apply String.eqb_eq in Hf. rewrite Hf. split; [done|].
    rewrite flagsOf_audioStreamArgs_filter. apply in_or_app. right. by left.
Qed.

(** What the measurement pass yields once the subprocess has succeeded. *)
Lemma getLoudnormJson_succeeded (file : string) :
  failed (runCommand env "ffmpeg" (measureArgs file)) = false ->
  getLoudnormJson env file =
    ([EvExec "ffmpeg" (measureArgs file)],
     let lines := Split (stderr (runCommand env "ffmpeg" (measureArgs file))) newline in
     match slice lines (Z.of_nat (length lines) - 13) (Z.of_nat (length lines) - 1) with
     | None => Panic
     | Some piece =>
         if snd (Unmarshal env decodeLoudnorm (Join piece " ") zeroLoudnorm)
         then Exit 1
         else Ok (fst (Unmarshal env decodeLoudnorm (Join piece " ") zeroLoudnorm))
     end).
Proof.
  intros Hrun. unfold getLoudnormJson. run_M. simpl. rewrite Hrun.
  destruct (slice _ _ _); [|done].
  by destruct (Unmarshal _ _ _ _) as [m []].
Qed.

(** C5. With [loudnorm2Pass] set and the measurement subprocess successful,
    the text handed to the JSON decoder is the 12 lines before the final
    line of the diagnostic output, joined by spaces, and the builder ends
    with [-filter:a] and the fixed template, the decoded [output_i],
    [output_lra], [output_tp], [output_thresh] and [target_offset] in the
    slots [measured_I], [measured_LRA], [measured_TP], [measured_thresh] and
    [offset]. *)
Theorem two_pass_filter_from_measurement (a : Audio.t) (file : string)
    (pre piece : list string) (last : string) (m : loudnormValues.t) :
  Audio.Loudnorm2Pass a = true ->
  failed (runCommand env "ffmpeg" (measureArgs file)) = false ->
  Split (stderr (runCommand env "ffmpeg" (measureArgs file))) newline
    = pre ++ piece ++ [last] ->
  length piece = 12%nat ->
  Unmarshal env decodeLoudnorm (Join piece " ") zeroLoudnorm = (m, false) ->
  getLoudnormJson env file = ([EvExec "ffmpeg" (measureArgs file)], Ok m) /\
  parseAudioSettings env a file =
    ([EvExec "ffmpeg" (measureArgs file)],
     Ok (audioStreamArgs a ++
         ["-filter:a";
          "loudnorm=I=-16:TP=-1.5:LRA=11:measured_I=" +:+ loudnormValues.OutputI m
          +:+ ":measured_LRA=" +:+ loudnormValues.OutputLra m
          +:+ ":measured_TP=" +:+ loudnormValues.OutputTp m
          +:+ ":measured_thresh=" +:+ loudnormValues.OutputThresh m
          +:+ ":offset=" +:+ loudnormValues.TargetOffset m
          +:+ ":linear=true"])).
Proof.
  intros H2 Hrun Hlines Hlen Hjson.
  assert (Hm : getLoudnormJson env file = ([EvExec "ffmpeg" (measureArgs file)], Ok m)).
  { rewrite (getLoudnormJson_succeeded file Hrun). simpl. rewrite Hlines.
    rewrite (slice_twelve_before_last pre piece last Hlen). by rewrite Hjson. }
  split; [done|].
  rewrite (parseAudioSettings_two_pass a file H2), Hm. reflexivity.
Qed.

(** C9. After a successful measurement run, the extraction panics exactly
    when the diagnostic text splits into fewer than 13 lines: with fewer it
    panics (and so does the audio builder that asked for the measurement),
    with 13 or more it returns a measurement or ends the process with a
    diagnostic. *)
Theorem short_diagnostics_panic (file : string) :
  failed (runCommand env "ffmpeg" (measureArgs file)) = false ->
  ((length (Split (stderr (runCommand env "ffmpeg" (measureArgs file))) newline) < 13)%nat ->
     getLoudnormJson env file = ([EvExec "ffmpeg" (measureArgs file)], Panic) /\
     forall a, Audio.Loudnorm2Pass a = true ->
       parseAudioSettings env a file = ([EvExec "ffmpeg" (measureArgs file)], Panic)) /\
  ((13 <= length (Split (stderr (runCommand env "ffmpeg" (measureArgs file))) newline))%nat ->
     (exists m, outcome (getLoudnormJson env file) = Ok m)
     \/ outcome (getLoudnormJson env file) = Exit 1).
Proof.
  intros Hrun. rewrite (getLoudnormJson_succeeded file Hrun). simpl.
  set (lines := Split _ _). split.
  - intros Hshort%slice_none_iff. rewrite Hshort.
    split; [done|]. intros a H2.
    rewrite (parseAudioSettings_two_pass a file H2),
            (getLoudnormJson_succeeded file Hrun).
    simpl. fold lines. by rewrite Hshort.
  - intros Hlong.
    destruct (slice lines _ _) as [piece|] eqn:E.
    + destruct (snd (Unmarshal _ _ _ _)); eauto.
    + apply slice_none_iff in E. lia.
Qed.

End Measurement.

Lemma storeInt_in_range (n old : Z) : intInRange n -> storeInt (JInt n) old = (n, false).
Proof.
  unfold intInRange, storeInt. intros [Hlo Hhi].
  destruct (Z.leb_spec (- 2 ^ 63) n); [|lia].
  destruct (Z.ltb_spec n (2 ^ 63)); [done|lia].
Qed.

(** A settings value written by [encodeSettings] is read back unchanged. *)
Lemma decode_encode_settings (s : Settings.t) :
  intInRange (Video.Quality (Settings.Video s)) ->
  intInRange (Time.TimeSkipIntro (Settings.Time s)) ->
  intInRange (Time.TotalTime (Settings.Time s)) ->
  decodeSettings (objectMembers (encodeSettings s)) zeroSettings = (s, false).
Proof.
  destruct s as [[] [] [] [] []]. simpl. intros Hq Hs Ht.
  unfold decodeSettings, decodeVideo, decodeTime, decodeAudio, decodeSubtitles, decodeReady.
  cbn -[storeInt]. rewrite !storeInt_in_range by done. reflexivity.
Qed.

(** ** The orchestrator *)

(** C2. For settings that copy both streams, skip 10 s and keep 30 s, all
    else zero, input [in.mp4] and output [out.mp4], the run launches the
    encoder once, with the arguments in the fixed section order: input,
    overwrite flag, time skip, duration, audio, video, output. *)
Theorem end_to_end_copy_scenario (env : Env) (fl : Flags) (bytes : string) :
  templateType fl = "" ->
  inFile fl = "in.mp4" ->
  outFile fl = "out.mp4" ->
  settingsFile fl <> "" ->
  readFile env (settingsFile fl) = Contents bytes ->
  fst (Unmarshal env decodeSettings bytes zeroSettings) = scenarioSettings ->
  main env fl =
    ([EvExec "/usr/bin/ffmpeg"
        ["-i"; "in.mp4"; "-y"; "-ss"; "10"; "-t"; "30";
         "-c:a"; "copy"; "-c:v"; "copy"; "out.mp4"]],
     Ok tt).
Proof.
  intros Ht Hin Hout Hset%String.eqb_neq Hread Hjson.
  unfold main, parseSettingsJson. rewrite Ht, Hin, Hout, Hset, Hread. simpl.
  destruct (Unmarshal env decodeSettings bytes zeroSettings) as [settings err].
  simpl in Hjson. subst settings. reflexivity.
Qed.

Lemma end_to_end_copy_scenario_witness :
  main scenarioEnv sampleFlags =
    ([EvExec "/usr/bin/ffmpeg"
        ["-i"; "in.mp4"; "-y"; "-ss"; "10"; "-t"; "30";
         "-c:a"; "copy"; "-c:v"; "copy"; "out.mp4"]],
     Ok tt).
Proof.
  apply (end_to_end_copy_scenario scenarioEnv sampleFlags "scenario");
    [reflexivity | reflexivity | reflexivity | discriminate | reflexivity | reflexivity].
Defined.

(** C1 (what the code does). When the settings file is read but its text is
    not valid JSON, the run does not end: the settings stay at their zero
    values, the encoder is launched with the arguments built from them, and
    [main] returns normally. *)
Theorem malformed_settings_still_encode (env : Env) (fl : Flags) (bytes : string) :
  templateType fl = "" ->
  inFile fl <> "" ->
  outFile fl <> "" ->
  settingsFile fl <> "" ->
  readFile env (settingsFile fl) = Contents bytes ->
  jsonScan env bytes = None ->
  main env fl =
    ([EvExec "/usr/bin/ffmpeg"
        ["-i"; inFile fl; "-y"; "-c:a"; "aac"; "-b:a"; "192k";
         "-c:v"; "h264_omx"; "-profile:v"; "high"; outFile fl]],
     Ok tt).
Proof.
  intros Ht Hin%String.eqb_neq Hout%String.eqb_neq Hset%String.eqb_neq Hread Hjson.
  unfold main, parseSettingsJson, Unmarshal.
  rewrite Ht, Hin, Hout, Hset, Hread, Hjson. reflexivity.
Qed.

Lemma malformed_settings_still_encode_witness :
  main brokenEnv sampleFlags =
    ([EvExec "/usr/bin/ffmpeg"
        ["-i"; "in.mp4"; "-y"; "-c:a"; "aac"; "-b:a"; "192k";
         "-c:v"; "h264_omx"; "-profile:v"; "high"; "out.mp4"]],
     Ok tt).
Proof.
  apply (malformed_settings_still_encode brokenEnv sampleFlags "{");
    [reflexivity | discriminate | discriminate | discriminate | reflexivity | reflexivity].
Defined.

(** C8 (what the code does). The struct tag of the audio bitrate is spelt
    [auidioBitrate]: the key [audioBitrate] of a settings document reaches
    no field, so the bitrate stays empty and the builder falls back to
    [192k]; only the misspelt key sets it; and an encoded Audio value, the
    one of a template included, carries the misspelt key and no
    [audioBitrate] key. *)
Theorem audio_bitrate_key_misspelt :
  findField audioTags "audioBitrate" = None /\
  Audio.AudioBitrate (Settings.Audio (fst (decodeSettings
    [("audio", JObj [("audioBitrate", JStr "128k")])] zeroSettings))) = "" /\
  audioStreamArgs (Settings.Audio (fst (decodeSettings
    [("audio", JObj [("audioBitrate", JStr "128k")])] zeroSettings)))
    = ["-c:a"; "aac"; "-b:a"; "192k"] /\
  Audio.AudioBitrate (Settings.Audio (fst (decodeSettings
    [("audio", JObj [("auidioBitrate", JStr "128k")])] zeroSettings))) = "128k" /\
  (forall a : Audio.t,
     In ("auidioBitrate", JStr (Audio.AudioBitrate a)) (objectMembers (encodeAudio a)) /\
     forall v : json, ~ In ("audioBitrate", v) (objectMembers (encodeAudio a))) /\
  In ("auidioBitrate", JStr "192k")
     (objectMembers (encodeAudio (Settings.Audio (makeTemplate "movie")))).
Proof.
  split; [reflexivity|]. split; [reflexivity|]. split; [reflexivity|].
  split; [reflexivity|]. split.
  - intros a. split; simpl; [tauto|].
    intros v H. repeat (destruct H as [H|H]; try discriminate H). done.
  - vm_compute. tauto.
Qed.

Lemma resolution_resolved_witness :
  resolveResolution "720p" = ret "1280:720" /\
  resolveResolution "1280:720" = ret "1280:720" /\
  parseVideoSettings (Video.mk false false "tiny" "" 0 "" "" "" "") zeroSubtitles "in.mp4"
    = exit 1.
Proof.
  split; [|split].
  - apply (resolution_resolved "720p"); [discriminate | reflexivity].
  - apply (resolution_resolved "1280:720"); [discriminate|].
    exists "1280", "720". repeat split; reflexivity.
  - assert (Hne : "tiny" <> "") by discriminate.
    destruct (resolution_resolved "tiny" Hne) as (_ & _ & _ & _ & _ & H).
    apply H; [| |reflexivity].
    + unfold presetNames. rewrite !not_elem_of_cons. repeat split; try discriminate.
      apply not_elem_of_nil.
    + intros E%resolutionRegex_explicitDims. discriminate E.
Defined.

Lemma scale_and_subtitles_one_filter_witness :
  parseVideoSettings burnInVideo burnInSubtitles "in.mp4"
    = ret ["-c:v"; "h264_omx"; "-profile:v"; "high";
           "-vf"; "scale=1280:720, subtitles='in.mp4'"].
Proof.
  assert (Hne : Video.Resolution burnInVideo <> "") by discriminate.
  destruct (scale_and_subtitles_one_filter burnInVideo burnInSubtitles "in.mp4" eq_refl)
    as [H _].
  destruct (H Hne) as [Hscaled _].
  destruct (Hscaled "1280:720" eq_refl) as (subFile & style & Heq & _ & Hf & _ & Hs & _).
  rewrite Heq, (Hf eq_refl), (Hs eq_refl). reflexivity.
Defined.

Lemma subtitle_clause_leading_comma_witness :
  exists rest : string,
    parseVideoSettings zeroVideo burnInSubtitles "in.mp4"
      = ret (videoCodecArgs zeroVideo ++ ["-vf"; ", subtitles='" +:+ rest]).
Proof.
  apply (subtitle_clause_leading_comma zeroVideo burnInSubtitles "in.mp4");
    reflexivity.
Defined.

Lemma cbr_needs_bitrate_witness :
  videoCodecArgs cbrWithoutBitrate =
    ["-profile:v"; "high10"; "-crf"; "23"; "-maxrate"; "4M"; "-bufsize"; "6M";
     "-tune"; "film"].
Proof.
  destruct (cbr_needs_bitrate cbrWithoutBitrate zeroSubtitles "in.mp4" eq_refl)
    as (_ & H & _).
  apply H. intros [_ Hb]. by apply Hb.
Defined.

Lemma audio_filter_flag_witness :
  parseAudioSettings scenarioEnv singlePassAudio "in.mp4"
    = ret ["-c:a"; "aac"; "-b:a"; "192k"; "-filter:a"; ""] /\
  parseAudioSettings scenarioEnv plainAudio "in.mp4" = ret ["-c:a"; "aac"; "-b:a"; "192k"].
Proof.
  split.
  - apply (audio_filter_flag scenarioEnv singlePassAudio "in.mp4"); reflexivity.
  - apply (audio_filter_flag scenarioEnv plainAudio "in.mp4"); [reflexivity|discriminate].
Defined.

Lemma two_pass_filter_from_measurement_witness :
  parseAudioSettings measuredEnv twoPassAudio "in.mp4" =
    ([EvExec "ffmpeg" (measureArgs "in.mp4")],
     Ok ["-c:a"; "aac"; "-ac"; "2"; "-b:a"; "192k"; "-filter:a";
         "loudnorm=I=-16:TP=-1.5:LRA=11:measured_I=-16.58:measured_LRA=14.78:measured_TP=-1.50:measured_thresh=-27.71:offset=0.58:linear=true"]).
Proof.
  apply (two_pass_filter_from_measurement measuredEnv twoPassAudio "in.mp4"
           ["size=N/A time=00:00:30.00"; "[Parsed_loudnorm_0 @ 0x5581]"]
           measuredBlock "" measuredLoudnorm);
    reflexivity.
Defined.

Lemma short_diagnostics_panic_witness :
  getLoudnormJson terseEnv "in.mp4" = ([EvExec "ffmpeg" (measureArgs "in.mp4")], Panic).
Proof.
  apply (short_diagnostics_panic terseEnv "in.mp4"); [reflexivity|].
  vm_compute. lia.
Defined.


(** ** Further properties: resolutions *)

Lemma preset_cases (r : string) :
  r ∈ presetNames -> r = "480p" \/ r = "720p" \/ r = "1080p" \/ r = "4k".
Proof.
  unfold presetNames. rewrite !elem_of_cons.
  intros [?|[?|[?|[?|H]]]]; auto. by apply elem_of_nil in H.
Qed.

Lemma resolutionMap_returns (r d : string) :
  resolutionMap r = ret d ->
  r ∈ presetNames /\ d <> "" /\ explicitDims d /\ ~ explicitDims r.
Proof.
  intros H. destruct (decide (r ∈ presetNames)) as [Hin|Hout].
  - split; [done|].
    destruct (preset_cases r Hin) as [-> | [-> | [-> | ->]]];
      injection H as <-; (split; [discriminate|]);
      (split; [apply resolutionRegex_explicitDims; reflexivity|]);
      intros E%resolutionRegex_explicitDims; discriminate E.
  - rewrite (resolutionMap_absent r Hout) in H. discriminate H.
Qed.

Lemma resolutionMap_exit_iff (r : string) :
  (r ∉ presetNames) <-> resolutionMap r = exit 1.
Proof.
  split; [apply resolutionMap_absent|].
  intros H Hin. destruct (preset_cases r Hin) as [-> | [-> | [-> | ->]]]; discriminate H.
Qed.

(** X1. The preset table alone accepts the four preset names and nothing
    else: [resolutionMap] returns for a name of the table, with a non-empty
    result, and ends the process with status 1 for every other string, a
    [w:h] string and the empty string included. *)
Theorem resolutionMap_accepts_presets_only (r : string) :
  ((exists d, resolutionMap r = ret d /\ d <> "") <-> r ∈ presetNames) /\
  ((r ∉ presetNames) <-> resolutionMap r = exit 1).
Proof.
  split; split.
  - intros (d & H & _). by apply resolutionMap_returns in H as [? _].
  - intros Hin. destruct (preset_cases r Hin) as [-> | [-> | [-> | ->]]];
      eexists; (split; [reflexivity | discriminate]).
  - apply resolutionMap_exit_iff.
  - apply resolutionMap_exit_iff.
Qed.

(** X2. What the resolution step returns is always of the shape
    digits-colon-digits, and is a fixed point of the step: resolving the
    result again returns it unchanged. *)
Theorem resolveResolution_idempotent (r d : string) :
  resolveResolution r = ret d ->
  explicitDims d /\ resolveResolution d = ret d.
Proof.
  intros H.
  assert (Hd : explicitDims d).
  { unfold resolveResolution in H.
    destruct (MatchString resolutionRegex r) eqn:E.
    - injection H as <-. by apply resolutionRegex_explicitDims.
    - by apply resolutionMap_returns in H as (_ & _ & ? & _). }
  split; [done|]. unfold resolveResolution.
  apply resolutionRegex_explicitDims in Hd. by rewrite Hd.
Qed.

Lemma resolveResolution_idempotent_witness :
  explicitDims "1920:1080" /\ resolveResolution "1920:1080" = ret "1920:1080".
Proof. apply (resolveResolution_idempotent "1080p" "1920:1080"). reflexivity. Defined.

Lemma resolveResolution_exit_iff (r : string) :
  resolveResolution r = exit 1 <-> (r ∉ presetNames) /\ ~ explicitDims r.
Proof.
  unfold resolveResolution. split.
  - destruct (MatchString resolutionRegex r) eqn:E; [discriminate|].
    intros H. split.
    + by apply resolutionMap_exit_iff.
    + intros Hx%resolutionRegex_explicitDims. congruence.
  - intros [Hout Hx].
    destruct (MatchString resolutionRegex r) eqn:E.
    + by apply resolutionRegex_explicitDims in E.
    + by apply resolutionMap_absent.
Qed.

(** ** Further properties: the video builder *)

Lemma parseVideoSettings_trace (v : Video.t) (s : Subtitles.t) (f : string) :
  trace (parseVideoSettings v s f) = [].
Proof.
  destruct (String.eqb_spec (Video.Resolution v) "") as [Hr|Hr].
  - destruct (Subtitles.BurnInSubtitles s) eqn:Hb.
    + by rewrite (parseVideoSettings_subtitles_only v s f Hr Hb).
    + by rewrite (parseVideoSettings_no_filter v s f Hr Hb).
  - destruct (resolveResolution_cases (Video.Resolution v)) as [[dims Hd]|He].
    + by rewrite (parseVideoSettings_scaled v s f dims Hr Hd).
    + by rewrite (parseVideoSettings_unresolved v s f Hr He).
Qed.

(** X3. The video builder launches nothing and never panics: it returns an
    argument list or ends the process with status 1, and it ends the process
    exactly when the resolution is non-empty and neither a preset name nor
    of the shape digits-colon-digits. *)
Theorem video_builder_outcomes (v : Video.t) (s : Subtitles.t) (f : string) :
  trace (parseVideoSettings v s f) = [] /\
  ((exists args, outcome (parseVideoSettings v s f) = Ok args)
   \/ outcome (parseVideoSettings v s f) = Exit 1) /\
  (outcome (parseVideoSettings v s f) = Exit 1
   <-> Video.Resolution v <> "" /\ (Video.Resolution v ∉ presetNames)
       /\ ~ explicitDims (Video.Resolution v)).
Proof.
  destruct (String.eqb_spec (Video.Resolution v) "") as [Hr|Hr].
  - assert (H : exists args, parseVideoSettings v s f = ret args).
    { destruct (Subtitles.BurnInSubtitles s) eqn:Hb.
      - rewrite (parseVideoSettings_subtitles_only v s f Hr Hb). eauto.
      - rewrite (parseVideoSettings_no_filter v s f Hr Hb). eauto. }
    destruct H as [args ->]. simpl. split; [done|]. split; [eauto|].
    split; [discriminate | by intros [? _]].
  - destruct (resolveResolution_cases (Video.Resolution v)) as [[dims Hd]|He].
    + rewrite (parseVideoSettings_scaled v s f dims Hr Hd). simpl.
      split; [done|]. split; [eauto|]. split; [discriminate|].
      intros (_ & Hx). apply resolveResolution_exit_iff in Hx.
      rewrite Hd in Hx. discriminate Hx.
    + rewrite (parseVideoSettings_unresolved v s f Hr He). simpl.
      split; [done|]. split; [auto|]. split; [|done].
      intros _. split; [done|]. by apply resolveResolution_exit_iff.
Qed.

(** X4. What the video builder returns is a list of flag/value pairs: its
    length is even and every entry at a flag position is one of the eight
    video flags, whatever strings the settings hold. *)
Theorem video_args_are_pairs (v : Video.t) (s : Subtitles.t) (f : string)
    (args : list string) :
  outcome (parseVideoSettings v s f) = Ok args ->
  Nat.even (length args) = true /\
  forall flag, In flag (flagsOf args) -> In flag videoFlags.
Proof.
  intros H. apply parseVideoSettings_returns in H.
  unfold videoCodecArgs, videoFlags in *.
  destruct (Video.SoftwareEncode v); simpl in H;
    [destruct (_ && _); simpl in H|];
    destruct H as [->|[filter ->]]; simpl; (split; [done|]);
    intros flag Hin; repeat (destruct Hin as [<-|Hin]; [tauto|]); done.
Qed.

Lemma video_args_are_pairs_witness :
  Nat.even (length ["-profile:v"; "high10"; "-crf"; "23"; "-maxrate"; "4M";
                    "-bufsize"; "6M"; "-tune"; "film"]) = true /\
  forall flag,
    In flag (flagsOf ["-profile:v"; "high10"; "-crf"; "23"; "-maxrate"; "4M";
                      "-bufsize"; "6M"; "-tune"; "film"]) ->
    In flag videoFlags.
Proof.
  apply (video_args_are_pairs cbrWithoutBitrate zeroSubtitles "in.mp4"). reflexivity.
Defined.

(** X5. On the hardware path ([softwareEncode] false) the video builder
    reads the resolution and nothing else of the Video settings: two Video
    values with the same resolution give the same result, whatever their
    mode, quality, tune, bitrates and [justCopy]. *)
Theorem hardware_path_ignores_rate_control (v v' : Video.t) (s : Subtitles.t)
    (f : string) :
  Video.SoftwareEncode v = false ->
  Video.SoftwareEncode v' = false ->
  Video.Resolution v = Video.Resolution v' ->
  parseVideoSettings v s f = parseVideoSettings v' s f.
Proof.
  intros Hv Hv' Hr. unfold parseVideoSettings, videoCodecArgs.
  by rewrite Hv, Hv', Hr.
Qed.

Lemma hardware_path_ignores_rate_control_witness :
  parseVideoSettings hardwareVideo burnInSubtitles "in.mp4"
  = parseVideoSettings hardwareVideoTuned burnInSubtitles "in.mp4".
Proof.
  apply (hardware_path_ignores_rate_control hardwareVideo hardwareVideoTuned);
    reflexivity.
Defined.

(** ** Further properties: the audio builder and the measurement *)


Lemma length_Split (s : string) (c : ascii) :
  length (Split s c) = S (countByte c s).
Proof.
  induction s as [|x s IH]; simpl; [done|].
  destruct (Ascii.eqb x c); simpl; [by rewrite IH|].
  destruct (Split s c); simpl in *; [discriminate IH | done].
Qed.

Section MeasurementMore.

Variable env : Env.

Lemma parseAudioSettings_trace_cases (a : Audio.t) (file : string) :
  trace (parseAudioSettings env a file) = []
  \/ trace (parseAudioSettings env a file) = [EvExec "ffmpeg" (measureArgs file)].
Proof.
  destruct (Audio.Loudnorm2Pass a) eqn:H2.
  - right. rewrite (parseAudioSettings_two_pass env a file H2).
    pose proof (getLoudnormJson_trace env file) as Ht. run_M.
    destruct (getLoudnormJson env file) as [t [m| |]]; simpl in *;
      by rewrite ?app_nil_r.
  - left. rewrite (parseAudioSettings_single_pass env a file H2).
    by destruct (String.eqb _ _).
Qed.

Lemma getLoudnormJson_failed (file : string) :
  failed (runCommand env "ffmpeg" (measureArgs file)) = true ->
  getLoudnormJson env file = ([EvExec "ffmpeg" (measureArgs file)], Exit 1).
Proof. intros Hrun. unfold getLoudnormJson. run_M. simpl. by rewrite Hrun. Qed.

(** X7. The audio builder launches the measurement subprocess exactly when
    [loudnorm2Pass] is set, whatever [audioFilter] says, and launches
    nothing else: its trace is the one [ffmpeg] run with the measurement
    arguments, or empty. *)
Theorem measurement_runs_iff_two_pass (a : Audio.t) (file : string) :
  trace (parseAudioSettings env a file)
  = if Audio.Loudnorm2Pass a then [EvExec "ffmpeg" (measureArgs file)] else [].
Proof.
  destruct (Audio.Loudnorm2Pass a) eqn:H2.
  - rewrite (parseAudioSettings_two_pass env a file H2).
    pose proof (getLoudnormJson_trace env file) as Ht. run_M.
    destruct (getLoudnormJson env file) as [t [m| |]]; simpl in *;
      by rewrite ?app_nil_r.
  - rewrite (parseAudioSettings_single_pass env a file H2).
    by destruct (String.eqb _ _).
Qed.

(** X8. What the audio builder returns is a list of flag/value pairs: its
    length is even and every entry at a flag position is one of the four
    audio flags, whatever strings the settings and the measurement hold. *)
Theorem audio_args_are_pairs (a : Audio.t) (file : string) (args : list string) :
  outcome (parseAudioSettings env a file) = Ok args ->
  Nat.even (length args) = true /\
  forall flag, In flag (flagsOf args) -> In flag audioFlags.
Proof.
  intros H.
  assert (Hshape : args = audioStreamArgs a
                   \/ exists filter, args = audioStreamArgs a ++ ["-filter:a"; filter]).
  { destruct (Audio.Loudnorm2Pass a) eqn:H2.
    - rewrite (parseAudioSettings_two_pass env a file H2) in H. run_M.
      destruct (getLoudnormJson env file) as [t [m| |]]; simpl in H; try done.
      injection H as <-. eauto.
    - rewrite (parseAudioSettings_single_pass env a file H2) in H.
      destruct (String.eqb _ _); injection H as <-; eauto. }
  unfold audioStreamArgs, audioFlags in *.
  destruct (negb (String.eqb (Audio.AudioChannels a) "")); simpl in Hshape;
    destruct Hshape as [->|[filter ->]]; simpl; (split; [done|]);
    intros flag Hin; repeat (destruct Hin as [<-|Hin]; [tauto|]); done.
Qed.

(** X9. The measurement ends the process with status 1, and with no other
    status, in two cases only: the subprocess failed (whatever it printed),
    or the 12 extracted lines do not decode.  In both the one trace event is
    the measurement run. *)
Theorem measurement_exit_cases (file : string) :
  (failed (runCommand env "ffmpeg" (measureArgs file)) = true ->
     getLoudnormJson env file = ([EvExec "ffmpeg" (measureArgs file)], Exit 1)) /\
  (forall code, outcome (getLoudnormJson env file) = Exit code ->
     code = 1 /\
     (failed (runCommand env "ffmpeg" (measureArgs file)) = true
      \/ exists piece,
           slice (Split (stderr (runCommand env "ffmpeg" (measureArgs file))) newline)
                 (Z.of_nat (length (Split (stderr (runCommand env "ffmpeg"
                                                     (measureArgs file))) newline)) - 13)
                 (Z.of_nat (length (Split (stderr (runCommand env "ffmpeg"
                                                     (measureArgs file))) newline)) - 1)
           = Some piece /\
           snd (Unmarshal env decodeLoudnorm (Join piece " ") zeroLoudnorm) = true)).
Proof.
  split; [apply getLoudnormJson_failed|].
  - intros code.
    destruct (failed (runCommand env "ffmpeg" (measureArgs file))) eqn:Hrun.
    + rewrite (getLoudnormJson_failed file Hrun). simpl.
      intros [= <-]. auto.
    + rewrite (getLoudnormJson_succeeded env file Hrun). simpl.
      destruct (slice _ _ _) as [piece|] eqn:E; [|discriminate].
      destruct (snd (Unmarshal _ _ _ _)) eqn:Herr; [|discriminate].
      intros [= <-]. split; [done|]. right. eauto.
Qed.

(** X10. Counted in bytes: the measurement panics exactly when the
    subprocess succeeded and its diagnostic text holds fewer than 12
    newline bytes. *)
Theorem measurement_panics_iff_few_newlines (file : string) :
  outcome (getLoudnormJson env file) = Panic
  <-> failed (runCommand env "ffmpeg" (measureArgs file)) = false /\
      (countByte newline (stderr (runCommand env "ffmpeg" (measureArgs file))) < 12)%nat.
Proof.
  destruct (failed (runCommand env "ffmpeg" (measureArgs file))) eqn:Hrun.
  - rewrite (getLoudnormJson_failed file Hrun). simpl.
    split; [discriminate | by intros [? _]].
  - rewrite (getLoudnormJson_succeeded env file Hrun). simpl.
    set (text := stderr _).
    pose proof (slice_none_iff (Split text newline)) as Hs.
    rewrite length_Split in Hs. rewrite length_Split.
    destruct (slice (Split text newline) _ _) as [piece|] eqn:E.
    + split.
      * destruct (snd (Unmarshal _ _ _ _)); discriminate.
      * intros [_ Hn].
        assert (Hnone : (S (countByte newline text) < 13)%nat) by lia.
        apply Hs in Hnone. discriminate Hnone.
    + split; [|done]. intros _. split; [done|].
      assert (Hfew : (S (countByte newline text) < 13)%nat) by (by apply Hs).
      lia.
Qed.

End MeasurementMore.

Lemma audio_args_are_pairs_witness :
  Nat.even (length ["-c:a"; "aac"; "-b:a"; "192k"; "-filter:a"; ""]) = true /\
  forall flag,
    In flag (flagsOf ["-c:a"; "aac"; "-b:a"; "192k"; "-filter:a"; ""]) ->
    In flag audioFlags.
Proof.
  apply (audio_args_are_pairs scenarioEnv singlePassAudio "in.mp4"). reflexivity.
Defined.

Lemma measurement_exit_cases_witness :
  getLoudnormJson failingEnv "in.mp4" = ([EvExec "ffmpeg" (measureArgs "in.mp4")], Exit 1).
Proof. apply (measurement_exit_cases failingEnv "in.mp4"). reflexivity. Defined.

Lemma template_mode_exit (env : Env) (fl : Flags) :
  templateType fl <> "" ->
  main env fl =
    ([EvWriteFile "template.json"
        (jsonIndent env (encodeSettings (makeTemplate (templateType fl))))],
     Exit 0).
Proof. intros Ht%String.eqb_neq. unfold main. rewrite Ht. reflexivity. Qed.

Lemma missing_flag_exit (env : Env) (fl : Flags) :
  templateType fl = "" ->
  inFile fl = "" \/ outFile fl = "" \/ settingsFile fl = "" ->
  main env fl = ([], Exit 1).
Proof.
  intros Ht H. unfold main. rewrite Ht. simpl.
  destruct H as [H|[H|H]]; rewrite H; simpl; by rewrite ?orb_true_r.
Qed.

Lemma unreadable_settings_exit (env : Env) (fl : Flags) :
  transcodeFlags fl ->
  readFile env (settingsFile fl) = OpenError \/ readFile env (settingsFile fl) = ReadError ->
  main env fl = ([], Exit 1).
Proof.
  intros (Ht & Hin%String.eqb_neq & Hout%String.eqb_neq & Hset%String.eqb_neq) Hread.
  unfold main, parseSettingsJson. rewrite Ht, Hin, Hout, Hset. simpl.
  by destruct Hread as [-> | ->].
Qed.

(** ** Further properties: the orchestrator *)

Section Orchestrator.

Variable env : Env.
Variable fl : Flags.

(** [main] after its guards: the two builder sections, then the encoder. *)
Lemma main_sections (bytes : string) :
  transcodeFlags fl ->
  readFile env (settingsFile fl) = Contents bytes ->
  main env fl =
    (aArgs ← audioSection env (loadedSettings env bytes) (inFile fl);
     vArgs ← videoSection (loadedSettings env bytes) (inFile fl);
     emit (EvExec "/usr/bin/ffmpeg"
             (leadingArgs fl (loadedSettings env bytes) ++ aArgs ++ vArgs
              ++ [outFile fl]))).
Proof.
  intros (Ht & Hin%String.eqb_neq & Hout%String.eqb_neq & Hset%String.eqb_neq) Hread.
  unfold main, parseSettingsJson, loadedSettings, audioSection, videoSection, leadingArgs.
  rewrite Ht, Hin, Hout, Hset, Hread. simpl.
  destruct (Unmarshal env decodeSettings bytes zeroSettings) as [settings err]. simpl.
  run_M. simpl.
  destruct (Ready.NoOverwrite _), (Time.TimeSkipIntro _ =? 0), (Time.TotalTime _ =? 0);
    simpl;
    (destruct (Audio.JustCopy _);
     [|destruct (parseAudioSettings _ _ _) as [ta [aArgs| |]]]; simpl; try done;
     (destruct (Video.JustCopy _);
      [|destruct (parseVideoSettings _ _ _) as [tv [vArgs| |]]]; simpl; try done;
      rewrite <- ?app_assoc; simpl; reflexivity)).
Qed.

(** X11. The section order of the argument vector.  When the settings file
    is read and both builder sections return, the run ends with one launch
    of the encoder whose arguments are, in this order: [-i] and the input,
    [-y] unless [noOverwrite], [-ss] and [-t] when non-zero, the audio
    arguments, the video arguments, the output.  The only event before it is
    the measurement run, when the audio section asked for one. *)
Theorem main_section_order (bytes : string) (ta : list Event)
    (aArgs vArgs : list string) :
  transcodeFlags fl ->
  readFile env (settingsFile fl) = Contents bytes ->
  audioSection env (loadedSettings env bytes) (inFile fl) = (ta, Ok aArgs) ->
  outcome (videoSection (loadedSettings env bytes) (inFile fl)) = Ok vArgs ->
  main env fl =
    (ta ++ [EvExec "/usr/bin/ffmpeg"
              (["-i"; inFile fl]
               ++ (if Ready.NoOverwrite (Settings.Ready (loadedSettings env bytes))
                   then [] else ["-y"])
               ++ (if Time.TimeSkipIntro (Settings.Time (loadedSettings env bytes)) =? 0
                   then []
                   else ["-ss"; itoa (Time.TimeSkipIntro
                                        (Settings.Time (loadedSettings env bytes)))])
               ++ (if Time.TotalTime (Settings.Time (loadedSettings env bytes)) =? 0
                   then []
                   else ["-t"; itoa (Time.TotalTime
                                       (Settings.Time (loadedSettings env bytes)))])
               ++ aArgs ++ vArgs ++ [outFile fl])],
     Ok tt).
Proof.
  intros Hfl Hread Ha Hv. rewrite (main_sections bytes Hfl Hread), Ha.
  assert (Hvt : videoSection (loadedSettings env bytes) (inFile fl) = ([], Ok vArgs)).
  { unfold videoSection in *.
    destruct (Video.JustCopy _); [by injection Hv as <-|].
    pose proof (parseVideoSettings_trace
                  (Settings.Video (loadedSettings env bytes))
                  (Settings.Subtitles (loadedSettings env bytes)) (inFile fl))
      as Ht.
    destruct (parseVideoSettings _ _ _) as [t r]. simpl in *. by subst. }
  run_M. rewrite Hvt. unfold leadingArgs. simpl. by rewrite <- !app_assoc.
Qed.

(** X12. The encode is launched only by a run that returns: if a launch of
    [/usr/bin/ffmpeg] appears in the trace of [main], [main] has returned
    normally, that launch is the last event, the only event before it is the
    measurement run if there is one, and its arguments start with [-i] and
    the input and end with the output.  So a run that ends by [os.Exit] or
    by a panic has not launched the encode. *)
Theorem encoder_launched_only_on_return (args : list string) :
  In (EvExec "/usr/bin/ffmpeg" args) (trace (main env fl)) ->
  outcome (main env fl) = Ok tt /\
  (exists before, trace (main env fl) = before ++ [EvExec "/usr/bin/ffmpeg" args] /\
                  (before = [] \/ before = [EvExec "ffmpeg" (measureArgs (inFile fl))])) /\
  exists middle, args = ["-i"; inFile fl] ++ middle ++ [outFile fl].
Proof.
  unfold main.
  destruct (String.eqb_spec (templateType fl) "") as [Ht|Ht]; simpl.
  2:{ unfold writeJson. run_M. simpl. intros [H|[]]. discriminate H. }
  destruct (String.eqb_spec (inFile fl) "") as [Hin|Hin]; simpl; [by intros []|].
  destruct (String.eqb_spec (outFile fl) "") as [Hout|Hout]; simpl; [by intros []|].
  destruct (String.eqb_spec (settingsFile fl) "") as [Hset|Hset]; simpl; [by intros []|].
  destruct (readFile env (settingsFile fl)) as [| |bytes] eqn:Hread.
  1,2: unfold parseSettingsJson; rewrite Hread; simpl; by intros [].
  assert (Hfl : transcodeFlags fl) by done.
  pose proof (main_sections bytes Hfl Hread) as Hmain. unfold main in Hmain.
  apply String.eqb_eq in Ht. apply String.eqb_neq in Hin, Hout, Hset.
  rewrite Ht, Hin, Hout, Hset in Hmain. simpl in Hmain. rewrite Hmain. clear Hmain.
  set (settings := loadedSettings env bytes).
  assert (Ha : exists ta r, audioSection env settings (inFile fl) = (ta, r) /\
                 (ta = [] \/ ta = [EvExec "ffmpeg" (measureArgs (inFile fl))])).
  { unfold audioSection. destruct (Audio.JustCopy _); [by eexists _, _; eauto|].
    pose proof (parseAudioSettings_trace_cases env (Settings.Audio settings) (inFile fl))
      as Htr.
    destruct (parseAudioSettings _ _ _) as [ta r]. simpl in Htr. by exists ta, r. }
  destruct Ha as (ta & ra & -> & Hta).
  assert (Hv : exists rv, videoSection settings (inFile fl) = ([], rv)).
  { unfold videoSection. destruct (Video.JustCopy _); [by eexists|].
    pose proof (parseVideoSettings_trace (Settings.Video settings)
                  (Settings.Subtitles settings) (inFile fl)) as Htr.
    destruct (parseVideoSettings _ _ _) as [tv rv]. simpl in Htr. subst tv. eauto. }
  destruct Hv as (rv & ->).
  assert (Hnot : ~ In (EvExec "/usr/bin/ffmpeg" args) ta).
  { destruct Hta as [-> | ->]; simpl; [tauto|]. intros [H|[]]. discriminate H. }
  run_M. destruct ra as [aArgs| |]; simpl; [|done..].
  destruct rv as [vArgs| |]; simpl; rewrite ?app_nil_r; [|done..].
  intros [H|[H|[]]]%in_app_or; [done|]. injection H as <-.
  split; [done|]. split; [eauto|].
  exists (tail (tail (leadingArgs fl settings)) ++ aArgs ++ vArgs).
  unfold leadingArgs. simpl. by rewrite <- !app_assoc.
Qed.


(** X14. Without [-make-template], a run that lacks the input, the output
    or the settings flag ends with status 1 at once: the settings file is
    not read, nothing is launched or written, in any world. *)
Theorem missing_flag_fatal :
  templateType fl = "" ->
  inFile fl = "" \/ outFile fl = "" \/ settingsFile fl = "" ->
  main env fl = ([], Exit 1).
Proof.
  intros Ht H. unfold main. rewrite Ht. simpl.
  destruct H as [H|[H|H]]; rewrite H; simpl; by rewrite ?orb_true_r.
Qed.

(** X15. With [-make-template] the run only writes [template.json], the
    indented encoding of the chosen template, and ends with status 0: the
    other flags are not looked at, no settings file is read and no
    subprocess is launched. *)
Theorem template_mode_writes_and_exits :
  templateType fl <> "" ->
  main env fl =
    ([EvWriteFile "template.json"
        (jsonIndent env (encodeSettings (makeTemplate (templateType fl))))],
     Exit 0).
Proof.
  intros Ht%String.eqb_neq. unfold main. rewrite Ht. reflexivity.
Qed.

End Orchestrator.

Lemma main_section_order_witness :
  main scenarioEnv sampleFlags =
    ([EvExec "/usr/bin/ffmpeg"
        ["-i"; "in.mp4"; "-y"; "-ss"; "10"; "-t"; "30";
         "-c:a"; "copy"; "-c:v"; "copy"; "out.mp4"]],
     Ok tt).
Proof.
  apply (main_section_order scenarioEnv sampleFlags "scenario" []
           ["-c:a"; "copy"] ["-c:v"; "copy"]);
    [repeat split; discriminate | reflexivity | reflexivity | reflexivity].
Defined.

Lemma encoder_launched_only_on_return_witness :
  outcome (main scenarioEnv sampleFlags) = Ok tt.
Proof.
  apply (encoder_launched_only_on_return scenarioEnv sampleFlags
           ["-i"; "in.mp4"; "-y"; "-ss"; "10"; "-t"; "30";
            "-c:a"; "copy"; "-c:v"; "copy"; "out.mp4"]).
  vm_compute. left. reflexivity.
Defined.


Lemma missing_flag_fatal_witness : main scenarioEnv missingOutputFlags = ([], Exit 1).
Proof.
  apply (missing_flag_fatal scenarioEnv missingOutputFlags);
    [reflexivity | right; left; reflexivity].
Defined.

Lemma template_mode_writes_and_exits_witness :
  main templateFileEnv templateFlags =
    ([EvWriteFile "template.json" "tv-normal template"], Exit 0).
Proof.
  apply (template_mode_writes_and_exits templateFileEnv templateFlags). discriminate.
Defined.

(** X16. [justCopy] on both streams short-circuits everything else of the
    audio and video settings: no measurement is run even when
    [loudnorm2Pass] is set, a resolution that does not resolve does not end
    the process, and the vector carries [-c:a copy -c:v copy] between the
    leading arguments and the output. *)
Theorem just_copy_skips_builders (env : Env) (fl : Flags) (bytes : string) :
  transcodeFlags fl ->
  readFile env (settingsFile fl) = Contents bytes ->
  Audio.JustCopy (Settings.Audio (loadedSettings env bytes)) = true ->
  Video.JustCopy (Settings.Video (loadedSettings env bytes)) = true ->
  main env fl =
    ([EvExec "/usr/bin/ffmpeg"
        (leadingArgs fl (loadedSettings env bytes)
         ++ ["-c:a"; "copy"; "-c:v"; "copy"; outFile fl])],
     Ok tt).
Proof.
  intros Hfl Hread Ha Hv. rewrite (main_sections env fl bytes Hfl Hread).
  unfold audioSection, videoSection. by rewrite Ha, Hv.
Qed.

Lemma just_copy_skips_builders_witness :
  main copyAnywayEnv sampleFlags =
    ([EvExec "/usr/bin/ffmpeg"
        ["-i"; "in.mp4"; "-c:a"; "copy"; "-c:v"; "copy"; "out.mp4"]],
     Ok tt).
Proof.
  apply (just_copy_skips_builders copyAnywayEnv sampleFlags "copy");
    [repeat split; discriminate | reflexivity | reflexivity | reflexivity].
Defined.

(** ** Further properties: templates and the settings file *)

Lemma makeTemplate_unknown (arg : string) :
  arg ∉ templateNames -> makeTemplate arg = makeTemplate "template".
Proof.
  unfold templateNames. rewrite !not_elem_of_cons.
  intros (H1 & H2 & H3 & H4 & _). unfold makeTemplate.
  rewrite !lookup_insert_ne by done. rewrite lookup_empty. reflexivity.
Qed.

Lemma makeTemplate_cases (arg : string) :
  makeTemplate arg = makeTemplate "template" \/ makeTemplate arg = makeTemplate "movie"
  \/ makeTemplate arg = makeTemplate "tv-high" \/ makeTemplate arg = makeTemplate "tv-normal".
Proof.
  destruct (decide (arg ∈ templateNames)) as [Hin|Hout].
  - unfold templateNames in Hin. rewrite !elem_of_cons in Hin.
    destruct Hin as [-> | [-> | [-> | [-> | Hin]]]]; auto.
    by apply elem_of_nil in Hin.
  - left. by apply makeTemplate_unknown.
Qed.

(** X17. A template name other than the four known ones, the empty name
    included, yields the generic annotated template. *)
Theorem unknown_template_is_generic (arg : string) :
  arg ∉ templateNames -> makeTemplate arg = makeTemplate "template".
Proof. apply makeTemplate_unknown. Qed.

Lemma unknown_template_is_generic_witness :
  makeTemplate "tv" = makeTemplate "template".
Proof.
  apply (unknown_template_is_generic "tv").
  unfold templateNames. rewrite !not_elem_of_cons.
  repeat split; try discriminate. apply not_elem_of_nil.
Defined.

Section SettingsFile.

Variable env : Env.


(** X19. Every template reads back as itself: whatever name
    [-make-template] was given, if the settings file holds the document
    written for it, [parseSettingsJson] returns exactly [makeTemplate] of
    that name, without a decoding error. *)
Theorem template_round_trip (arg file bytes : string) :
  readFile env file = Contents bytes ->
  jsonScan env bytes = Some (encodeSettings (makeTemplate arg)) ->
  parseSettingsJson env file = ret (makeTemplate arg) /\
  Unmarshal env decodeSettings bytes zeroSettings = (makeTemplate arg, false).
Proof.
  intros Hread Hscan.
  assert (Hu : Unmarshal env decodeSettings bytes zeroSettings = (makeTemplate arg, false)).
  { unfold Unmarshal. rewrite Hscan.
    apply decode_encode_settings;
      destruct (makeTemplate_cases arg) as [-> | [-> | [-> | ->]]];
      vm_compute; (split; [intros H; discriminate H | reflexivity]). }
  split; [|done]. unfold parseSettingsJson. by rewrite Hread, Hu.
Qed.

Lemma string_length_append (a b : string) :
  String.length (a +:+ b) = (String.length a + String.length b)%nat.
Proof. induction a as [|c a IH]; simpl; [done | by rewrite IH]. Qed.

Lemma substring_all (b : string) : substring 0 (String.length b) b = b.
Proof. induction b as [|c b IH]; simpl; [done | by rewrite IH]. Qed.

Lemma substring_after (a b : string) :
  substring (String.length a) (String.length b) (a +:+ b) = b.
Proof. induction a as [|c a IH]; simpl; [apply substring_all | done]. Qed.

Lemma HasSuffix_append (a b : string) : HasSuffix (a +:+ b) b = true.
Proof.
  unfold HasSuffix. rewrite string_length_append.
  replace (String.length a + String.length b - String.length b)%nat
    with (String.length a) by lia.
  rewrite substring_after, String.eqb_refl, andb_true_r.
  apply Nat.leb_le. lia.
Qed.

(** X20. [writeJson] writes exactly one file and launches nothing; the
    name it writes to always ends in [.json]: the given name when it
    already does, else the given name with [.json] appended. *)
Theorem writeJson_name_ends_in_json (jsonData : Settings.t) (fileName : string) :
  exists name,
    writeJson env jsonData fileName
    = ([EvWriteFile name (jsonIndent env (encodeSettings jsonData))], Ok tt) /\
    HasSuffix name ".json" = true /\
    name = (if HasSuffix fileName ".json" then fileName else fileName +:+ ".json").
Proof.
  unfold writeJson.
  destruct (HasSuffix fileName ".json") eqn:E; simpl.
  - exists fileName. by rewrite E.
  - exists (fileName +:+ ".json"). split; [done|]. split; [|done].
    apply HasSuffix_append.
Qed.

End SettingsFile.


Lemma template_round_trip_witness :
  parseSettingsJson templateFileEnv "template.json" = ret (makeTemplate "tv-normal").
Proof.
  apply (template_round_trip templateFileEnv "tv-normal" "template.json"
           "tv-normal template"); reflexivity.
Defined.

(** ** Further properties: how a run ends *)

Section Endings.

Variable env : Env.
Variable fl : Flags.


Lemma parseAudioSettings_outcome (a : Audio.t) (file : string) :
  (exists args, outcome (parseAudioSettings env a file) = Ok args)
  \/ (Audio.Loudnorm2Pass a = true /\
      ((outcome (parseAudioSettings env a file) = Panic
        /\ outcome (getLoudnormJson env file) = Panic)
       \/ exists code, outcome (parseAudioSettings env a file) = Exit code
                       /\ outcome (getLoudnormJson env file) = Exit code)).
Proof.
  destruct (Audio.Loudnorm2Pass a) eqn:H2.
  - rewrite (parseAudioSettings_two_pass env a file H2). run_M.
    destruct (getLoudnormJson env file) as [t [m| |]]; simpl; eauto 7.
  - left. rewrite (parseAudioSettings_single_pass env a file H2).
    destruct (String.eqb _ _); simpl; eauto.
Qed.

Lemma parseVideoSettings_outcome (v : Video.t) (s : Subtitles.t) (f : string) :
  (exists args, outcome (parseVideoSettings v s f) = Ok args)
  \/ outcome (parseVideoSettings v s f) = Exit 1.
Proof.
  destruct (String.eqb_spec (Video.Resolution v) "") as [Hr|Hr].
  - destruct (Subtitles.BurnInSubtitles s) eqn:Hb.
    + rewrite (parseVideoSettings_subtitles_only v s f Hr Hb). simpl. eauto.
    + rewrite (parseVideoSettings_no_filter v s f Hr Hb). simpl. eauto.
  - destruct (resolveResolution_cases (Video.Resolution v)) as [[dims Hd]|He].
    + rewrite (parseVideoSettings_scaled v s f dims Hr Hd). simpl. eauto.
    + rewrite (parseVideoSettings_unresolved v s f Hr He). simpl. eauto.
Qed.

(** How [main] ends once its guards are passed, by the ends of its two
    builder sections. *)
Lemma main_outcome_sections (bytes : string) :
  transcodeFlags fl ->
  readFile env (settingsFile fl) = Contents bytes ->
  outcome (main env fl) =
    match outcome (audioSection env (loadedSettings env bytes) (inFile fl)) with
    | Ok _ =>
        match outcome (videoSection (loadedSettings env bytes) (inFile fl)) with
        | Ok _ => Ok tt
        | Exit c => Exit c
        | Panic => Panic
        end
    | Exit c => Exit c
    | Panic => Panic
    end.
Proof.
  intros Hfl Hread. rewrite (main_sections env fl bytes Hfl Hread). run_M.
  destruct (audioSection _ _ _) as [ta [aArgs| |]]; simpl; [|done..].
  destruct (videoSection _ _) as [tv [vArgs| |]]; simpl; done.
Qed.


(** X22. The one panic of a run is the measurement's slice: if [main]
    panics, then the settings file was read, the audio stream is not
    copied, [loudnorm2Pass] is set, and the measurement panicked. *)
Theorem main_panics_only_in_measurement :
  outcome (main env fl) = Panic ->
  transcodeFlags fl /\
  exists bytes,
    readFile env (settingsFile fl) = Contents bytes /\
    Audio.JustCopy (Settings.Audio (loadedSettings env bytes)) = false /\
    Audio.Loudnorm2Pass (Settings.Audio (loadedSettings env bytes)) = true /\
    outcome (getLoudnormJson env (inFile fl)) = Panic.
Proof.
  intros H.
  destruct (String.eqb_spec (templateType fl) "") as [Ht|Ht].
  2:{ rewrite (template_mode_exit env fl Ht) in H. discriminate H. }
  destruct (String.eqb_spec (inFile fl) "") as [Hin|Hin].
  { rewrite missing_flag_exit in H by auto. discriminate H. }
  destruct (String.eqb_spec (outFile fl) "") as [Hout|Hout].
  { rewrite missing_flag_exit in H by auto. discriminate H. }
  destruct (String.eqb_spec (settingsFile fl) "") as [Hset|Hset].
  { rewrite missing_flag_exit in H by auto. discriminate H. }
  assert (Hfl : transcodeFlags fl) by done. split; [done|].
  destruct (readFile env (settingsFile fl)) as [| |bytes] eqn:Hread.
  1,2: rewrite unreadable_settings_exit in H by auto; discriminate H.
  exists bytes. split; [done|].
  rewrite (main_outcome_sections bytes Hfl Hread) in H.
  set (settings := loadedSettings env bytes) in *.
  assert (Hv : outcome (videoSection settings (inFile fl)) <> Panic).
  { unfold videoSection. destruct (Video.JustCopy _); [done|].
    destruct (parseVideoSettings_outcome (Settings.Video settings)
                (Settings.Subtitles settings) (inFile fl)) as [[args ->]| ->]; done. }
  unfold audioSection in H.
  destruct (Audio.JustCopy _); simpl in H.
  - destruct (outcome (videoSection settings (inFile fl))); done.
  - split; [done|].
    destruct (parseAudioSettings_outcome (Settings.Audio settings) (inFile fl))
      as [[args Ha]|(H2 & [[Ha Hm]|(c & Ha & Hm)])]; rewrite Ha in H.
    + destruct (outcome (videoSection settings (inFile fl))); done.
    + done.
    + discriminate H.
Qed.

End Endings.

(** ** Further properties: the log file path *)



Lemma main_panics_only_in_measurement_witness :
  transcodeFlags sampleFlags /\
  exists bytes,
    readFile terseTwoPassEnv (settingsFile sampleFlags) = Contents bytes /\
    Audio.JustCopy (Settings.Audio (loadedSettings terseTwoPassEnv bytes)) = false /\
    Audio.Loudnorm2Pass (Settings.Audio (loadedSettings terseTwoPassEnv bytes)) = true /\
    outcome (getLoudnormJson terseTwoPassEnv (inFile sampleFlags)) = Panic.
Proof.
  apply (main_panics_only_in_measurement terseTwoPassEnv sampleFlags). reflexivity.
Defined.
